(** * app.py: the model inventory reader and the chat relay

    A shallow embedding of [get_models], [chat_with_model] and the submit
    handler [respond] of [src/app.py], and the proofs of the properties the
    specification states about them.

    Conventions of the embedding:
    - a Python [str] is a [string]; each character is one code point in
      the range U+0000..U+00FF;
    - the two external collaborators ([subprocess.run] and [ollama.chat])
      are oracles of a [world]; every call and every [print] is recorded
      in the trace of the state;
    - the lists that are shared between caller and callee (the chat
      history, the [messages] list handed to the endpoint) live in a heap
      of objects and are passed by reference;
    - [try ... except Exception] is a handler of the error monad [M]: it
      handles the instances of [Exception] and lets every other raised
      object pass. *)

From Stdlib Require Import Ascii PrimFloat.
From stdpp Require Import base option list gmap strings.

(** ** Python [str] methods *)

Module Str.

(** [c.isspace()] for a code point below U+0100: TAB..CR, FS..US, space,
    NEL and NBSP. *)
Definition isspace (c : ascii) : bool :=
  let n := N_of_ascii c in
  ((9 <=? n) && (n <=? 13) || (28 <=? n) && (n <=? 32)
   || (n =? 133) || (n =? 160))%N.

(** truth value of a [str]: only the empty string is falsy *)
Definition truthy (s : string) : bool :=
  match s with EmptyString => false | String _ _ => true end.

Fixpoint lstrip (s : string) : string :=
  match s with
  | EmptyString => EmptyString
  | String c s' => if isspace c then lstrip s' else s
  end.

Fixpoint rstrip (s : string) : string :=
  match s with
  | EmptyString => EmptyString
  | String c s' =>
      match rstrip s' with
      | EmptyString => if isspace c then EmptyString else String c EmptyString
      | r => String c r
      end
  end.

(** [s.strip()] *)
Definition strip (s : string) : string := rstrip (lstrip s).

(** [s.split(sep)] for a one-character separator: every occurrence of
    [sep] starts a new piece, so the result has one piece more than there
    are separators. *)
Fixpoint split_on (sep : ascii) (s : string) : list string :=
  match s with
  | EmptyString => [EmptyString]
  | String c s' =>
      if Ascii.eqb c sep then EmptyString :: split_on sep s'
      else match split_on sep s' with
           | piece :: pieces => String c piece :: pieces
           | [] => [String c EmptyString]
           end
  end.

(** [s.split()]: the maximal runs of non-whitespace characters, scanning
    left to right; [cur] is the run being collected. *)
Fixpoint split_from (cur : string) (s : string) : list string :=
  match s with
  | EmptyString => if truthy cur then [cur] else []
  | String c s' =>
      if isspace c
      then (if truthy cur then [cur] else []) ++ split_from EmptyString s'
      else split_from (cur +:+ String c EmptyString) s'
  end.

Definition split (s : string) : list string := split_from EmptyString s.

(** [sep.join(parts)] *)
Fixpoint join (sep : string) (parts : list string) : string :=
  match parts with
  | [] => EmptyString
  | [p] => p
  | p :: ps => p +:+ sep +:+ join sep ps
  end.

(** [s.startswith(p)] *)
Fixpoint startswith (p s : string) : bool :=
  match p, s with
  | EmptyString, _ => true
  | String a p', String b s' => Ascii.eqb a b && startswith p' s'
  | String _ _, EmptyString => false
  end.

(** [needle in s] *)
Fixpoint contains (needle s : string) : bool :=
  startswith needle s
  || match s with
     | EmptyString => false
     | String _ s' => contains needle s'
     end.

End Str.

(** ** Data model *)

(** A raised exception object: its class name, the text [str(e)] gives,
    and whether it is an instance of [Exception]. [KeyboardInterrupt],
    [SystemExit] and the other classes that derive from [BaseException]
    alone are not. *)
Record exn := Exn { exn_class : string; exn_str : string;
                    exn_is_Exception : bool }.

Inductive outcome (A : Type) : Type :=
| Returned (a : A)
| Raised (e : exn).
Arguments Returned {A} a.
Arguments Raised {A} e.

(** The dictionaries [get_models] builds: keys ['name'], ['full_name'],
    ['size'] and ['modified']. *)
Module ModelRecord.
Record t := mk { name : string; full_name : string;
                 size : string; modified : string }.
End ModelRecord.

(** One entry of a messages payload: keys ["role"] and ["content"]. *)
Module ChatMessage.
Record t := mk { role : string; content : string }.
End ChatMessage.

(** The [options] dictionary of a chat call. *)
Module ChatOptions.
Record t := mk { temperature : float }.
End ChatOptions.

(** The keyword arguments of [ollama.chat]. *)
Module ChatRequest.
Record t := mk { model : string; messages : list ChatMessage.t;
                 options : ChatOptions.t }.
End ChatRequest.

(** What [ollama.chat] returns: [response['message']['content']]. *)
Module ChatResponse.
Record t := mk { message : ChatMessage.t }.
End ChatResponse.

(** What [subprocess.run(..., capture_output=True, text=True)] returns. *)
Module CompletedProcess.
Record t := mk { returncode : Z; stdout : string; stderr : string }.
End CompletedProcess.

(** One prior turn of the conversation, unpacked by the relay as
    [human_msg, assistant_msg]. *)
Definition turn : Type := string * string.

(** ** Heap, trace and the external world *)

Abbreviation loc := positive.

(** The mutable list objects of the program. *)
Inductive pyobj : Type :=
| ObjTurns (turns : list turn)
| ObjMessages (msgs : list ChatMessage.t).

(** What the program does to the outside, in order. *)
Inductive event : Type :=
| EvRun (argv : list string)
| EvChat (req : ChatRequest.t)
| EvPrint (line : string).

Record state := State { heap : gmap loc pyobj; trace : list event }.

(** The two external collaborators: each either returns or raises. *)
Record world := World {
  subprocess_run : list string → outcome CompletedProcess.t;
  ollama_chat : ChatRequest.t → outcome ChatResponse.t }.

(** ** The monad of state and exceptions *)

Definition M (A : Type) : Type := state → outcome A * state.

#[export] Instance M_ret : MRet M := λ A a st, (Returned a, st).

#[export] Instance M_bind : MBind M := λ A B f m st,
  match m st with
  | (Returned a, st') => f a st'
  | (Raised e, st') => (Raised e, st')
  end.

Definition raise {A} (e : exn) : M A := λ st, (Raised e, st).

(** [try: body except Exception as e: handler e]: an exception that is
    no instance of [Exception] goes on to the caller. *)
Definition try_except {A} (body : M A) (handler : exn → M A) : M A := λ st,
  match body st with
  | (Returned a, st') => (Returned a, st')
  | (Raised e, st') =>
      if exn_is_Exception e then handler e st' else (Raised e, st')
  end.

Definition emit (ev : event) : M unit := λ st,
  (Returned tt, State (heap st) (trace st ++ [ev])).

(** [print(line)] *)
Definition print (line : string) : M unit := emit (EvPrint line).

(** [xs[i]] *)
Definition getitem {A} (xs : list A) (i : nat) : M A :=
  match xs !! i with
  | Some x => mret x
  | None => raise (Exn "IndexError" "list index out of range" true)
  end.

(** A list display [[...]]: a new object at an unused location. *)
Definition new_object (o : pyobj) : M loc := λ st,
  let l := fresh (dom (heap st)) in
  (Returned l, State (<[l := o]> (heap st)) (trace st)).

(** A reference that does not hold a list of the kind a statement needs:
    Python raises there; the wording of its message is not modelled. *)
Definition not_a_list {A} : M A :=
  raise (Exn "TypeError" "object is not a list of the expected kind" true).

(** The turns a [for ... in history] loop runs over. No statement of the
    loop body writes to that list, so the loop sees the turns it holds on
    entry. *)
Definition read_turns (l : loc) : M (list turn) := λ st,
  match heap st !! l with
  | Some (ObjTurns ts) => (Returned ts, st)
  | _ => not_a_list st
  end.

Definition read_messages (l : loc) : M (list ChatMessage.t) := λ st,
  match heap st !! l with
  | Some (ObjMessages ms) => (Returned ms, st)
  | _ => not_a_list st
  end.

(** [l.append(t)] on a list of turns: in place. *)
Definition append_turn (l : loc) (t : turn) : M unit := λ st,
  match heap st !! l with
  | Some (ObjTurns ts) =>
      (Returned tt, State (<[l := ObjTurns (ts ++ [t])]> (heap st)) (trace st))
  | _ => not_a_list st
  end.

(** [l.append(m)] on a list of messages: in place. *)
Definition append_message (l : loc) (m : ChatMessage.t) : M unit := λ st,
  match heap st !! l with
  | Some (ObjMessages ms) =>
      (Returned tt, State (<[l := ObjMessages (ms ++ [m])]> (heap st)) (trace st))
  | _ => not_a_list st
  end.

(** [for x in xs: body], with the local variables the body assigns
    threaded through as [acc]. *)
Fixpoint for_in {A S} (xs : list A) (body : A → S → M S) (acc : S) : M S :=
  match xs with
  | [] => mret acc
  | x :: xs' => acc' ← body x acc; for_in xs' body acc'
  end.

Section Program.

Variable w : world.

(** [subprocess.run(argv, capture_output=True, text=True)] *)
Definition run_process (argv : list string) : M CompletedProcess.t := λ st,
  (subprocess_run w argv, State (heap st) (trace st ++ [EvRun argv])).

(** The endpoint receives a request and answers it. *)
Definition send_chat (req : ChatRequest.t) : M ChatResponse.t := λ st,
  (ollama_chat w req, State (heap st) (trace st ++ [EvChat req])).

(** [ollama.chat(model=..., messages=..., options=...)]; [messages] is the
    list object the request is read from. *)
Definition chat (model : string) (messages : loc) (options : ChatOptions.t)
  : M ChatResponse.t :=
  ms ← read_messages messages;
  send_chat (ChatRequest.mk model ms options).

(** ** [get_models] *)

Definition nl : ascii := "010"%char.

(** The fallback record of [get_models]. *)
Definition placeholder : ModelRecord.t :=
  ModelRecord.mk "llama2" "llama2:7b" "Unknown" "Unknown".

(** The body of [for line in lines[start_idx:]]; [models] is the list the
    loop appends to. *)
Definition get_models_row (line : string) (models : list ModelRecord.t)
  : M (list ModelRecord.t) :=
  if negb (Str.truthy (Str.strip line)) then mret models
  else
    let parts := Str.split line in
    if (4 <=? length parts)%nat then
      name ← getitem parts 0;
      size_value ← getitem parts 1;
      size_unit ← getitem parts 2;
      let size := size_value +:+ " " +:+ size_unit in
      let modified := Str.join " " (drop 3 parts) in
      base ← getitem (Str.split_on ":" name) 0;
      mret (models ++ [ModelRecord.mk base name size modified])
    else mret models.

Definition get_models : M (list ModelRecord.t) :=
  try_except
    (result ← run_process ["ollama"; "list"];
     if negb (CompletedProcess.returncode result =? 0)%Z then
       print ("Error running ollama list: " +:+ CompletedProcess.stderr result);;
       mret [placeholder]
     else
       let lines := Str.split_on nl (Str.strip (CompletedProcess.stdout result)) in
       first_line ← getitem lines 0;
       let start_idx := if Str.contains "NAME" first_line then 1 else 0 in
       models ← for_in (drop start_idx lines) get_models_row [];
       mret (match models with [] => [placeholder] | _ :: _ => models end))
    (λ e,
       print ("Error fetching models: " +:+ exn_str e);;
       mret [placeholder]).

(** ** [chat_with_model] *)

Definition system_message : string :=
  "You are an AI programming assistant. When asked about code:" +:+ String nl
  "        1. Provide clear, well-commented code examples" +:+ String nl
  "        2. Explain your reasoning and approach" +:+ String nl
  "        3. Highlight best practices and potential pitfalls" +:+ String nl
  "        4. Use markdown formatting for code blocks" +:+ String nl
  "        ".

Definition chat_with_model (message : string) (history : loc)
    (model_name : string) (temperature : float) : M string :=
  try_except
    (messages ← new_object (ObjMessages [ChatMessage.mk "system" system_message]);
     turns ← read_turns history;
     for_in turns
       (λ '(human_msg, assistant_msg) _,
          append_message messages (ChatMessage.mk "user" human_msg);;
          append_message messages (ChatMessage.mk "assistant" assistant_msg))
       tt;;
     append_message messages (ChatMessage.mk "user" message);;
     response ← chat model_name messages (ChatOptions.mk temperature);
     mret (ChatMessage.content (ChatResponse.message response)))
    (λ e,
       print ("Debug - Error in chat_with_model: " +:+ exn_str e);;
       mret ("Error: " +:+ exn_str e)).

(** ** The submit handler [respond] of [create_interface] *)

Definition respond (message : string) (chat_history : loc)
    (model_name : string) (temp : float) : M (string * loc) :=
  if negb (Str.truthy message) then mret ("", chat_history)
  else
    bot_message ← chat_with_model message chat_history model_name temp;
    append_turn chat_history (message, bot_message);;
    mret ("", chat_history).

End Program.


(** ** The specification's reading of the two operations

    These definitions follow the words of the specification, not the code;
    the theorems below compare them with the code. *)

Module Spec.

(** "the first token up to (excluding) its first colon" *)
Fixpoint before_first (sep : ascii) (s : string) : string :=
  match s with
  | EmptyString => EmptyString
  | String c s' =>
      if Ascii.eqb c sep then EmptyString else String c (before_first sep s')
  end.

(** "require at least four tokens; treat the first token as the full
    identifier (splitting off a pre-colon sub-token as the bare name), the
    next two tokens joined as size, and all remaining tokens joined as the
    modification timestamp" *)
Definition record_of (t0 t1 t2 t3 : string) (rest : list string)
  : ModelRecord.t :=
  ModelRecord.mk (before_first ":" t0) t0 (t1 +:+ " " +:+ t2)
    (Str.join " " (t3 :: rest)).

Definition row (line : string) : list ModelRecord.t :=
  match Str.split line with
  | t0 :: t1 :: t2 :: t3 :: rest => [record_of t0 t1 t2 t3 rest]
  | _ => []
  end.

Definition rows (lines : list string) : list ModelRecord.t :=
  flat_map row lines.

(** "invoked as an external process with a fixed argument list" *)
Definition argv_list : list string := ["ollama"; "list"].

(** "skip a first line if it contains the literal header token" *)
Definition data_lines (stdout : string) : list string :=
  match Str.split_on nl (Str.strip stdout) with
  | [] => []
  | first_line :: rest =>
      if Str.contains "NAME" first_line then rest else first_line :: rest
  end.

(** "a fallback placeholder record is substituted whenever parsing yields
    zero records" *)
Definition or_placeholder (models : list ModelRecord.t) : list ModelRecord.t :=
  match models with
  | [] => [placeholder]
  | _ :: _ => models
  end.

(** "prepend a fixed system instruction; append one user/assistant message
    pair per prior turn, in order; append the new message" *)
Definition pair_of (t : turn) : list ChatMessage.t :=
  [ChatMessage.mk "user" t.1; ChatMessage.mk "assistant" t.2].

Definition payload (message : string) (turns : list turn)
  : list ChatMessage.t :=
  ChatMessage.mk "system" system_message
  :: flat_map pair_of turns ++ [ChatMessage.mk "user" message].

(** "name equals full_name truncated at the first colon": the full name is
    the name followed by nothing or by a colon and more, and the name holds
    no colon. *)
Definition cut_at_colon (r : ModelRecord.t) : Prop :=
  (∃ suffix,
      ModelRecord.full_name r = ModelRecord.name r +:+ suffix
      ∧ (suffix = "" ∨ ∃ tag, suffix = String ":" tag))
  ∧ Str.contains ":" (ModelRecord.name r) = false.

(** a line of whitespace only *)
Fixpoint blank (s : string) : bool :=
  match s with
  | EmptyString => true
  | String c s' => Str.isspace c && blank s'
  end.

End Spec.

(** ** Sample inputs *)

Module Sample.

Definition listing : string :=
  "NAME SIZE UNIT MODIFIED" +:+ String nl
  "llama3:8b 4.7 GB 2 days ago" +:+ String nl
  "broken row" +:+ String nl "".

Definition reply : ChatResponse.t :=
  ChatResponse.mk (ChatMessage.mk "assistant" "hello").

Definition refused : exn := Exn "ConnectionError" "connection refused" true.

(** both collaborators answer *)
Definition up : world :=
  World (λ _, Returned (CompletedProcess.mk 0 listing "")) (λ _, Returned reply).

(** both collaborators raise *)
Definition down : world := World (λ _, Raised refused) (λ _, Raised refused).

(** a heap with one history of one turn, at location 1 *)
Definition st1 : state := State {[ 1%positive := ObjTurns [("a", "b")] ]} [].

Definition req1 : ChatRequest.t :=
  ChatRequest.mk "llama3:8b"
    [ChatMessage.mk "system" system_message;
     ChatMessage.mk "user" "a"; ChatMessage.mk "assistant" "b";
     ChatMessage.mk "user" "hi"]
    (ChatOptions.mk 0.5).

End Sample.

(** ** The model widgets of [create_interface] *)

(** The arguments a [gr.Dropdown] is built with: [choices] and [value]
    ([None] when the call gives none). *)
Module Dropdown.
Record t := mk { choices : list string; value : option string }.
End Dropdown.

(** The arguments [create_interface] computes for the model table
    ([headers] and [value]) and for the model dropdown. *)
Module Interface.
Record t := mk { headers : list string; model_table : list (list string);
                 model_dropdown : Dropdown.t }.
End Interface.

(** [[m['name'], m['full_name'], m['size'], m['modified']]] *)
Definition table_row (m : ModelRecord.t) : list string :=
  [ModelRecord.name m; ModelRecord.full_name m;
   ModelRecord.size m; ModelRecord.modified m].

Section Widgets.

Variable w : world.

(** Lines 97 to 115 of [create_interface], without the calls into the
    widget toolkit: [initial_models = get_models()] and the three argument
    expressions over [initial_models], evaluated in the order of the
    source. This is the data the widgets are built from, not the function:
    what the toolkit does with it, and whether its calls return, is
    outside. *)
Definition create_interface_arguments : M Interface.t :=
  initial_models ← get_models w;
  let model_table := map table_row initial_models in
  let choices := map ModelRecord.full_name initial_models in
  value ← match initial_models with
          | _ :: _ =>
              m ← getitem initial_models 0; mret (Some (ModelRecord.full_name m))
          | [] => mret None
          end;
  mret (Interface.mk ["Model"; "Full Name"; "Size"; "Last Modified"]
          model_table (Dropdown.mk choices value)).

(** The handler of the refresh button; [gr.Dropdown(choices=...)] is the
    record of its arguments. *)
Definition refresh_models : M (list (list string) * Dropdown.t) :=
  new_models ← get_models w;
  mret (map table_row new_models,
        Dropdown.mk (map ModelRecord.full_name new_models) None).

End Widgets.

(** ** Tokens *)

(** a string without a whitespace character *)
Fixpoint solid (s : string) : bool :=
  match s with
  | EmptyString => true
  | String c s' => negb (Str.isspace c) && solid s'
  end.

(** ** More sample inputs *)

Module Demo.

(** the listing as the command prints it, between blank lines *)
Definition padded_listing : string :=
  String nl (String nl Sample.listing) +:+ "  " +:+ String nl "".

Definition up_padded : world :=
  World (λ _, Returned (CompletedProcess.mk 0 padded_listing ""))
    (λ _, Returned Sample.reply).

(** Ctrl-C while a collaborator is at work *)
Definition interrupt : exn := Exn "KeyboardInterrupt" "" false.

Definition interrupted : world :=
  World (λ _, Raised interrupt) (λ _, Raised interrupt).

(** the endpoint answers with a text that reads like a failure *)
Definition up_error_text : world :=
  World (λ _, Returned (CompletedProcess.mk 0 Sample.listing ""))
    (λ _, Returned (ChatResponse.mk
                      (ChatMessage.mk "assistant" "Error: connection refused"))).

End Demo.

(** * Facts about the string methods *)

Example isspace_chars :
  map Str.isspace [" "; "009"; "010"; "013"; "031"; "133"; "160"; "a"; ":"]%char
  = [true; true; true; true; true; true; true; false; false].
Proof. reflexivity. Qed.

Example split_runs :
  Str.split "  llama3:8b   4.7 GB" = ["llama3:8b"; "4.7"; "GB"]
  ∧ Str.split_on ":" "a:b:c" = ["a"; "b"; "c"]
  ∧ Str.split_on ":" "" = [""]
  ∧ Str.strip "  a  b " = "a  b"
  ∧ Str.join " " ["2"; "days"; "ago"] = "2 days ago"
  ∧ Str.contains "NAME" "NAME ID SIZE" = true
  ∧ Str.contains "NAME" "name id size" = false.
Proof. repeat split; reflexivity. Qed.

Section StrFacts.

Implicit Types (s p : string) (c sep : ascii).

Lemma lstrip_blank s : Str.lstrip s = EmptyString → Spec.blank s = true.
Proof.
  induction s as [|c s IH]; simpl; [done|].
  destruct (Str.isspace c); [exact IH | discriminate].
Qed.

Lemma lstrip_head s c s' : Str.lstrip s = String c s' → Str.isspace c = false.
Proof.
  induction s as [|a s IH]; simpl; [discriminate|].
  destruct (Str.isspace a) eqn:Ha; [exact IH|].
  intros [= <- _]. exact Ha.
Qed.

Lemma rstrip_blank s : Str.rstrip s = EmptyString → Spec.blank s = true.
Proof.
  induction s as [|c s IH]; simpl; [done|].
  destruct (Str.rstrip s); [|discriminate].
  destruct (Str.isspace c); [intros _; by rewrite IH | discriminate].
Qed.

Lemma strip_blank s :
  Str.truthy (Str.strip s) = false → Spec.blank s = true.
Proof.
  unfold Str.strip. intros Hs.
  assert (Hr : Str.rstrip (Str.lstrip s) = EmptyString)
    by (destruct (Str.rstrip _); [done | discriminate]).
  apply rstrip_blank in Hr.
  destruct (Str.lstrip s) as [|c s'] eqn:Hl; [by apply lstrip_blank|].
  apply lstrip_head in Hl. simpl in Hr. by rewrite Hl in Hr.
Qed.

Lemma split_blank s : Spec.blank s = true → Str.split s = [].
Proof.
  unfold Str.split. induction s as [|c s IH]; simpl; [done|].
  intros [Hc Hs]%andb_prop. rewrite Hc. simpl. auto.
Qed.

Lemma split_on_head sep s :
  Str.split_on sep s !! 0 = Some (Spec.before_first sep s).
Proof.
  induction s as [|c s IH]; simpl; [done|].
  destruct (Ascii.eqb c sep); [done|].
  destruct (Str.split_on sep s) as [|piece pieces]; [discriminate|].
  simpl in *. congruence.
Qed.

Lemma startswith_app p s : Str.startswith p (p +:+ s) = true.
Proof.
  induction p as [|a p IH]; simpl; [done|].
  by rewrite Ascii.eqb_refl, IH.
Qed.

Lemma startswith_inv p s :
  Str.startswith p s = true → ∃ post, s = p +:+ post.
Proof.
  revert s. induction p as [|a p IH]; intros s; simpl.
  - by exists s.
  - destruct s as [|b s]; [discriminate|].
    intros [Hab Hp]%andb_prop. apply Ascii.eqb_eq in Hab as ->.
    destruct (IH _ Hp) as [post ->]. by exists post.
Qed.

(** [needle in s] holds exactly when [needle] occurs in [s]. *)
Lemma contains_occurs needle s :
  Str.contains needle s = true ↔ ∃ pre post, s = pre +:+ needle +:+ post.
Proof.
  split.
  - induction s as [|c s IH]; simpl; rewrite orb_true_iff; intros [H|H].
    + apply startswith_inv in H as [post ->]. by exists EmptyString, post.
    + discriminate.
    + apply startswith_inv in H as [post ->]. by exists EmptyString, post.
    + destruct (IH H) as (pre & post & ->). by exists (String c pre), post.
  - intros (pre & post & ->). induction pre as [|c pre IH].
    + pose proof (startswith_app needle post) as H. simpl.
      destruct (needle +:+ post); simpl; by rewrite H.
    + simpl in *. rewrite IH. apply orb_true_r.
Qed.

(** What [Spec.before_first] cuts off is empty or starts at the separator,
    and what it keeps holds no separator. *)
Lemma before_first_cut sep s :
  ∃ suffix, s = Spec.before_first sep s +:+ suffix
            ∧ (suffix = EmptyString ∨ ∃ t, suffix = String sep t).
Proof.
  induction s as [|c s (suffix & Hs & Hsuf)]; simpl.
  - exists EmptyString. auto.
  - destruct (Ascii.eqb c sep) eqn:E.
    + apply Ascii.eqb_eq in E as ->. exists (String sep s). eauto.
    + exists suffix. split; [change (String c s = String c
        (Spec.before_first sep s +:+ suffix)); congruence | done].
Qed.

Lemma before_first_free sep s :
  Str.contains (String sep EmptyString) (Spec.before_first sep s) = false.
Proof.
  induction s as [|c s IH]; simpl; [done|].
  destruct (Ascii.eqb c sep) eqn:E; simpl; [done|].
  by rewrite Ascii.eqb_sym, E, IH.
Qed.

Lemma before_first_id sep s :
  Str.contains (String sep EmptyString) s = false →
  Spec.before_first sep s = s.
Proof.
  induction s as [|c s IH]; simpl; [done|].
  intros [H1 H2]%orb_false_elim.
  destruct (Ascii.eqb c sep) eqn:E.
  - rewrite Ascii.eqb_sym, E in H1. discriminate.
  - by rewrite IH.
Qed.

End StrFacts.

(** * Running the program *)

(** Unfold the monad's operations in the goal and compute. *)
Ltac run_monad :=
  repeat (progress (unfold mbind, mret, M_bind, M_ret, print, emit, raise,
                    try_except; simpl)).

Section Run.

Variable w : world.

Lemma run_bind {A B} (m : M A) (f : A → M B) st :
  (m ≫= f) st = match m st with
                | (Returned a, st') => f a st'
                | (Raised e, st') => (Raised e, st')
                end.
Proof. reflexivity. Qed.

Lemma run_print line st :
  print line st = (Returned (), State (heap st) (trace st ++ [EvPrint line])).
Proof. reflexivity. Qed.

Lemma run_ret {A} (a : A) st : (mret a : M A) st = (Returned a, st).
Proof. reflexivity. Qed.

Lemma getitem_lookup {A} (xs : list A) i x :
  xs !! i = Some x → getitem xs i = mret x.
Proof. unfold getitem. by intros ->. Qed.

(** One pass of the loop body appends what the specification reads off
    the line, raises nothing and prints nothing. *)
Lemma get_models_row_run line models st :
  get_models_row line models st = (Returned (models ++ Spec.row line), st).
Proof.
  unfold get_models_row, Spec.row.
  destruct (Str.truthy (Str.strip line)) eqn:Hb; simpl.
  - destruct (Str.split line) as [|t0 [|t1 [|t2 [|t3 rest]]]]; simpl;
      rewrite ?app_nil_r; try done.
    rewrite !run_bind. simpl.
    by rewrite (getitem_lookup _ _ _ (split_on_head ":" t0)).
  - rewrite (split_blank line (strip_blank line Hb)). by rewrite app_nil_r.
Qed.

Lemma get_models_loop_run lines models st :
  for_in lines get_models_row models st
  = (Returned (models ++ Spec.rows lines), st).
Proof.
  revert models. induction lines as [|line lines IH]; intros models; simpl.
  - by rewrite app_nil_r.
  - rewrite run_bind, get_models_row_run, IH. by rewrite <- app_assoc.
Qed.

Lemma get_models_raised st e :
  subprocess_run w Spec.argv_list = Raised e →
  exn_is_Exception e = true →
  get_models w st
  = (Returned [placeholder],
     State (heap st)
       (trace st ++ [EvRun Spec.argv_list;
                     EvPrint ("Error fetching models: " +:+ exn_str e)])).
Proof.
  intros Hrun Hexc. unfold get_models, try_except, run_process.
  rewrite run_bind. fold Spec.argv_list. rewrite Hrun, Hexc. run_monad.
  by rewrite <- app_assoc.
Qed.

(** What is no instance of [Exception] passes the handler: nothing is
    printed and the caller gets the exception. *)
Lemma get_models_propagates st e :
  subprocess_run w Spec.argv_list = Raised e →
  exn_is_Exception e = false →
  get_models w st
  = (Raised e, State (heap st) (trace st ++ [EvRun Spec.argv_list])).
Proof.
  intros Hrun Hexc. unfold get_models, try_except, run_process.
  rewrite run_bind. fold Spec.argv_list. by rewrite Hrun, Hexc.
Qed.

Lemma get_models_failed st cp :
  subprocess_run w Spec.argv_list = Returned cp →
  CompletedProcess.returncode cp ≠ 0%Z →
  get_models w st
  = (Returned [placeholder],
     State (heap st)
       (trace st ++ [EvRun Spec.argv_list;
                     EvPrint ("Error running ollama list: "
                              +:+ CompletedProcess.stderr cp)])).
Proof.
  intros Hrun Hrc. unfold get_models, try_except, run_process.
  rewrite run_bind. fold Spec.argv_list. rewrite Hrun.
  apply Z.eqb_neq in Hrc. rewrite Hrc. run_monad.
  by rewrite <- app_assoc.
Qed.

Lemma get_models_parsed st cp :
  subprocess_run w Spec.argv_list = Returned cp →
  CompletedProcess.returncode cp = 0%Z →
  get_models w st
  = (Returned (Spec.or_placeholder
                 (Spec.rows (Spec.data_lines (CompletedProcess.stdout cp)))),
     State (heap st) (trace st ++ [EvRun Spec.argv_list])).
Proof.
  intros Hrun Hrc. unfold get_models, try_except, run_process, Spec.data_lines.
  rewrite run_bind. fold Spec.argv_list. rewrite Hrun, Hrc. simpl.
  destruct (Str.split_on nl (Str.strip (CompletedProcess.stdout cp)))
    as [|first_line rest] eqn:Hl.
  - pose proof (split_on_head nl (Str.strip (CompletedProcess.stdout cp))) as H.
    rewrite Hl in H. discriminate.
  - rewrite run_bind. simpl.
    destruct (Str.contains "NAME" first_line); cbn [skipn];
      rewrite run_bind, get_models_loop_run; simpl;
      by destruct (Spec.rows _).
Qed.

(** *** The relay *)

Lemma append_message_run l m ms st :
  heap st !! l = Some (ObjMessages ms) →
  append_message l m st
  = (Returned (),
     State (<[l := ObjMessages (ms ++ [m])]> (heap st)) (trace st)).
Proof. unfold append_message. by intros ->. Qed.

(** The history loop appends one user/assistant pair per turn to the
    messages object and touches nothing else. *)
Lemma history_loop_run l turns : ∀ ms h tr,
  h !! l = Some (ObjMessages ms) →
  for_in turns
    (λ '(human_msg, assistant_msg) _,
       append_message l (ChatMessage.mk "user" human_msg);;
       append_message l (ChatMessage.mk "assistant" assistant_msg))
    () (State h tr)
  = (Returned (),
     State (<[l := ObjMessages (ms ++ flat_map Spec.pair_of turns)]> h) tr).
Proof.
  induction turns as [|[human_msg assistant_msg] turns IH]; intros ms h tr Hl.
  - simpl. rewrite run_ret, app_nil_r. by rewrite insert_id.
  - cbn [for_in]. rewrite !run_bind.
    rewrite (append_message_run l _ ms) by done. cbn [heap trace].
    rewrite (append_message_run l _ (ms ++ [ChatMessage.mk "user" human_msg]))
      by (cbn [heap]; apply lookup_insert_eq).
    cbn [heap trace]. rewrite insert_insert_eq.
    rewrite (IH ((ms ++ [ChatMessage.mk "user" human_msg])
                 ++ [ChatMessage.mk "assistant" assistant_msg]))
      by apply lookup_insert_eq.
    rewrite insert_insert_eq. cbn [flat_map Spec.pair_of fst snd].
    by rewrite <- !app_assoc.
Qed.

Lemma chat_with_model_run message history turns model_name temperature st :
  heap st !! history = Some (ObjTurns turns) →
  let messages := fresh (dom (heap st)) in
  let req := ChatRequest.mk model_name (Spec.payload message turns)
               (ChatOptions.mk temperature) in
  let h' := <[messages := ObjMessages (Spec.payload message turns)]> (heap st) in
  chat_with_model w message history model_name temperature st
  = match ollama_chat w req with
    | Returned response =>
        (Returned (ChatMessage.content (ChatResponse.message response)),
         State h' (trace st ++ [EvChat req]))
    | Raised e =>
        if exn_is_Exception e then
          (Returned ("Error: " +:+ exn_str e),
           State h' (trace st ++
                     [EvChat req;
                      EvPrint ("Debug - Error in chat_with_model: "
                               +:+ exn_str e)]))
        else (Raised e, State h' (trace st ++ [EvChat req]))
    end.
Proof.
  intros Hh messages req h'.
  assert (Hfresh : heap st !! messages = None)
    by (apply not_elem_of_dom, is_fresh).
  assert (Hne : messages ≠ history) by congruence.
  unfold chat_with_model, try_except.
  rewrite run_bind. unfold new_object at 1. fold messages.
  rewrite run_bind. unfold read_turns at 1. cbn [heap trace].
  rewrite lookup_insert_ne, Hh by done.
  rewrite run_bind, (history_loop_run messages turns _ _ _ (lookup_insert_eq _ _ _)).
  rewrite insert_insert_eq, run_bind.
  rewrite (append_message_run messages _ _ _ (lookup_insert_eq _ _ _)).
  cbn [heap trace]. rewrite insert_insert_eq.
  rewrite run_bind. unfold chat. rewrite run_bind.
  unfold read_messages at 1. cbn [heap]. rewrite lookup_insert_eq.
  unfold send_chat. cbn [heap trace].
  change (([_] ++ flat_map Spec.pair_of turns) ++ [_])
    with (Spec.payload message turns).
  fold req h'. destruct (ollama_chat w req) as [response|e].
  - done.
  - run_monad. destruct (exn_is_Exception e); [|done].
    run_monad. by rewrite <- app_assoc.
Qed.

(** A history reference that holds no list of turns: the loop header
    raises, the handler turns that into the error string, and the endpoint
    is not called. *)
Lemma chat_with_model_no_turns message history model_name temperature st :
  (∀ turns, heap st !! history ≠ Some (ObjTurns turns)) →
  let messages := fresh (dom (heap st)) in
  let text := "object is not a list of the expected kind" in
  chat_with_model w message history model_name temperature st
  = (Returned ("Error: " +:+ text),
     State (<[messages := ObjMessages [ChatMessage.mk "system" system_message]]>
              (heap st))
       (trace st ++ [EvPrint ("Debug - Error in chat_with_model: " +:+ text)])).
Proof.
  intros Hh messages text.
  unfold chat_with_model, try_except.
  rewrite run_bind. unfold new_object at 1. fold messages.
  rewrite run_bind. unfold read_turns at 1. cbn [heap trace].
  destruct (decide (messages = history)) as [<-|Hne].
  - rewrite lookup_insert_eq. by run_monad.
  - rewrite lookup_insert_ne by done.
    destruct (heap st !! history) as [[turns|ms]|] eqn:E;
      [by destruct (Hh turns) | by run_monad ..].
Qed.

End Run.

(** * The inventory reader *)

Lemma rows_app lines1 lines2 :
  Spec.rows (lines1 ++ lines2) = Spec.rows lines1 ++ Spec.rows lines2.
Proof. apply flat_map_app. Qed.

Lemma row_short line : length (Str.split line) < 4 → Spec.row line = [].
Proof.
  unfold Spec.row.
  destruct (Str.split line) as [|t0 [|t1 [|t2 [|t3 rest]]]]; simpl; [done..|lia].
Qed.

Lemma rows_short lines :
  (∀ line, line ∈ lines → length (Str.split line) < 4) → Spec.rows lines = [].
Proof.
  induction lines as [|line lines IH]; intros Hshort; [done|].
  unfold Spec.rows in *. simpl.
  rewrite row_short by (apply Hshort; left).
  apply IH. intros l Hl. apply Hshort. by right.
Qed.

Lemma or_placeholder_nonempty models : Spec.or_placeholder models ≠ [].
Proof. by destruct models. Qed.

(** C2, amended: when the inventory command returns, or raises an
    instance of [Exception], [get_models] returns a non-empty list and
    raises nothing; when the command raises such an exception, exits with a
    non-zero code, or prints no line of at least four tokens after the
    header, the list is exactly the one placeholder record, whose name is
    ["llama2"] and whose full name is ["llama2:7b"]. *)
Theorem get_models_never_empty (w : world) (st : state) :
  (∀ e, subprocess_run w ["ollama"; "list"] = Raised e →
        exn_is_Exception e = true) →
  ∃ models,
    (get_models w st).1 = Returned models
    ∧ models ≠ []
    ∧ ((∃ e, subprocess_run w ["ollama"; "list"] = Raised e)
       ∨ (∃ cp, subprocess_run w ["ollama"; "list"] = Returned cp
                ∧ (CompletedProcess.returncode cp ≠ 0%Z
                   ∨ ∀ line, line ∈ Spec.data_lines (CompletedProcess.stdout cp)
                             → length (Str.split line) < 4))
       → models = [ModelRecord.mk "llama2" "llama2:7b" "Unknown" "Unknown"]).
Proof.
  intros Hexc.
  destruct (subprocess_run w Spec.argv_list) as [cp|e] eqn:Hrun.
  - destruct (decide (CompletedProcess.returncode cp = 0%Z)) as [Hrc|Hrc].
    + rewrite (get_models_parsed w st cp Hrun Hrc). eexists.
      split; [done|]. split; [apply or_placeholder_nonempty|].
      intros [[e He]|(cp' & Hcp & [Hne|Hshort])].
      * unfold Spec.argv_list in Hrun. congruence.
      * unfold Spec.argv_list in Hrun. congruence.
      * assert (cp' = cp) as -> by (unfold Spec.argv_list in Hrun; congruence).
        by rewrite rows_short.
    + rewrite (get_models_failed w st cp Hrun Hrc). by eexists.
  - rewrite (get_models_raised w st e Hrun (Hexc e Hrun)). by eexists.
Qed.

Lemma get_models_never_empty_witness :
  ∃ models,
    (get_models Sample.down Sample.st1).1 = Returned models
    ∧ models ≠ []
    ∧ ((∃ e, subprocess_run Sample.down ["ollama"; "list"] = Raised e)
       ∨ (∃ cp, subprocess_run Sample.down ["ollama"; "list"] = Returned cp
                ∧ (CompletedProcess.returncode cp ≠ 0%Z
                   ∨ ∀ line, line ∈ Spec.data_lines (CompletedProcess.stdout cp)
                             → length (Str.split line) < 4))
       → models = [ModelRecord.mk "llama2" "llama2:7b" "Unknown" "Unknown"]).
Proof.
  apply (get_models_never_empty Sample.down Sample.st1).
  intros e [= <-]. reflexivity.
Defined.

(** C2 does not hold for every exception: a [KeyboardInterrupt]
    raised while the command runs is no instance of [Exception], passes
    [except Exception], and [get_models] raises it instead of returning a
    list. *)
Lemma get_models_interrupted :
  subprocess_run Demo.interrupted ["ollama"; "list"] = Raised Demo.interrupt
  ∧ (get_models Demo.interrupted Sample.st1).1 = Raised Demo.interrupt
  ∧ ¬ ∃ models, (get_models Demo.interrupted Sample.st1).1 = Returned models.
Proof.
  split; [reflexivity|]. split; [reflexivity|]. intros [models H]. discriminate H.
Qed.

(** The three ways the inventory can fail, on sample worlds. *)
Example get_models_command_raises :
  get_models Sample.down Sample.st1
  = (Returned [placeholder],
     State (heap Sample.st1)
       [EvRun ["ollama"; "list"];
        EvPrint "Error fetching models: connection refused"]).
Proof. reflexivity. Qed.

Example get_models_exit_code :
  get_models
    (World (λ _, Returned (CompletedProcess.mk 1 Sample.listing "no daemon"))
       (λ _, Returned Sample.reply))
    Sample.st1
  = (Returned [placeholder],
     State (heap Sample.st1)
       [EvRun ["ollama"; "list"];
        EvPrint "Error running ollama list: no daemon"]).
Proof. reflexivity. Qed.

Example get_models_no_rows :
  (get_models
     (World (λ _, Returned (CompletedProcess.mk 0 "NAME SIZE UNIT MODIFIED" ""))
        (λ _, Returned Sample.reply))
     Sample.st1).1
  = Returned [placeholder].
Proof. reflexivity. Qed.

(** C4: a data line that splits into at least four tokens yields exactly
    one record, at the place of the line among the records of the other
    lines: its name is the first token up to its first colon, its full name
    the first token, its size the second and third tokens joined by one
    space, and its modification time the remaining tokens joined by
    spaces. *)
Theorem data_line_becomes_record (w : world) (st : state)
    (cp : CompletedProcess.t) (before after : list string) (line : string)
    (t0 t1 t2 t3 : string) (rest : list string) :
  subprocess_run w ["ollama"; "list"] = Returned cp →
  CompletedProcess.returncode cp = 0%Z →
  Spec.data_lines (CompletedProcess.stdout cp) = before ++ line :: after →
  Str.split line = t0 :: t1 :: t2 :: t3 :: rest →
  (get_models w st).1
  = Returned (Spec.rows before
              ++ [ModelRecord.mk (Spec.before_first ":" t0) t0
                    (t1 +:+ " " +:+ t2) (Str.join " " (t3 :: rest))]
              ++ Spec.rows after).
Proof.
  intros Hrun Hrc Hlines Hsplit.
  rewrite (get_models_parsed w st cp Hrun Hrc), Hlines, rows_app.
  unfold Spec.rows at 2. cbn [flat_map fst]. fold (Spec.rows after).
  unfold Spec.row at 1. rewrite Hsplit. unfold Spec.record_of.
  by destruct (Spec.rows before).
Qed.

Lemma data_line_becomes_record_witness :
  (get_models Sample.up Sample.st1).1
  = Returned ([] ++ [ModelRecord.mk "llama3" "llama3:8b" "4.7 GB" "2 days ago"]
              ++ []).
Proof.
  apply (data_line_becomes_record Sample.up Sample.st1
           (CompletedProcess.mk 0 Sample.listing "")
           [] ["broken row"] "llama3:8b 4.7 GB 2 days ago"
           "llama3:8b" "4.7" "GB" "2" ["days"; "ago"]); reflexivity.
Defined.

(** C6: a data line that splits into fewer than four tokens adds no record
    and prints nothing: the reader returns what the other lines give. *)
Theorem short_line_dropped (w : world) (st : state)
    (cp : CompletedProcess.t) (before after : list string) (line : string) :
  subprocess_run w ["ollama"; "list"] = Returned cp →
  CompletedProcess.returncode cp = 0%Z →
  Spec.data_lines (CompletedProcess.stdout cp) = before ++ line :: after →
  length (Str.split line) < 4 →
  get_models w st
  = (Returned (Spec.or_placeholder (Spec.rows (before ++ after))),
     State (heap st) (trace st ++ [EvRun ["ollama"; "list"]])).
Proof.
  intros Hrun Hrc Hlines Hshort.
  rewrite (get_models_parsed w st cp Hrun Hrc), Hlines, !rows_app.
  unfold Spec.rows at 2. cbn [flat_map]. by rewrite (row_short line Hshort).
Qed.

Lemma short_line_dropped_witness :
  get_models Sample.up Sample.st1
  = (Returned (Spec.or_placeholder
                 (Spec.rows (["llama3:8b 4.7 GB 2 days ago"] ++ []))),
     State (heap Sample.st1) (trace Sample.st1 ++ [EvRun ["ollama"; "list"]])).
Proof.
  apply (short_line_dropped Sample.up Sample.st1
           (CompletedProcess.mk 0 Sample.listing "")
           ["llama3:8b 4.7 GB 2 days ago"] [] "broken row");
    [reflexivity | reflexivity | reflexivity | vm_compute; lia].
Defined.

(** C7: the first line of the stripped output is skipped exactly when the
    text [NAME] occurs in it; a first line without it is parsed as the
    first data line, like the lines after it. *)
Theorem header_skipped_iff_NAME (w : world) (st : state)
    (cp : CompletedProcess.t) (first_line : string) (rest : list string) :
  subprocess_run w ["ollama"; "list"] = Returned cp →
  CompletedProcess.returncode cp = 0%Z →
  Str.split_on nl (Str.strip (CompletedProcess.stdout cp)) = first_line :: rest →
  ((∃ pre post, first_line = pre +:+ "NAME" +:+ post) →
   (get_models w st).1 = Returned (Spec.or_placeholder (Spec.rows rest)))
  ∧ (¬ (∃ pre post, first_line = pre +:+ "NAME" +:+ post) →
     (get_models w st).1
     = Returned (Spec.or_placeholder (Spec.row first_line ++ Spec.rows rest))).
Proof.
  intros Hrun Hrc Hlines.
  rewrite (get_models_parsed w st cp Hrun Hrc).
  unfold Spec.data_lines. rewrite Hlines.
  pose proof (contains_occurs "NAME" first_line) as Hin.
  destruct (Str.contains "NAME" first_line); split; intros H; try done.
  - destruct H. by apply Hin.
  - apply Hin in H. discriminate.
Qed.

Lemma header_skipped_iff_NAME_witness :
  ((∃ pre post, "NAME SIZE UNIT MODIFIED" = pre +:+ "NAME" +:+ post) →
   (get_models Sample.up Sample.st1).1
   = Returned (Spec.or_placeholder
                 (Spec.rows ["llama3:8b 4.7 GB 2 days ago"; "broken row"])))
  ∧ (¬ (∃ pre post, "NAME SIZE UNIT MODIFIED" = pre +:+ "NAME" +:+ post) →
     (get_models Sample.up Sample.st1).1
     = Returned (Spec.or_placeholder
                   (Spec.row "NAME SIZE UNIT MODIFIED"
                    ++ Spec.rows ["llama3:8b 4.7 GB 2 days ago"; "broken row"]))).
Proof.
  apply (header_skipped_iff_NAME Sample.up Sample.st1
           (CompletedProcess.mk 0 Sample.listing "")); reflexivity.
Defined.

(** Containment is textual: a first line in which [NAME] occurs inside a
    longer token is skipped as well. *)
Example header_inside_token :
  (get_models
     (World (λ _, Returned (CompletedProcess.mk 0
                              ("UNNAMED:7b 3.8 GB 5 weeks ago" +:+ String nl
                               "llama3:8b 4.7 GB 2 days ago") ""))
        (λ _, Returned Sample.reply))
     Sample.st1).1
  = Returned [ModelRecord.mk "llama3" "llama3:8b" "4.7 GB" "2 days ago"].
Proof. reflexivity. Qed.

(** A first line without [NAME] is a data line. *)
Example no_header :
  (get_models
     (World (λ _, Returned (CompletedProcess.mk 0
                              ("mistral:7b 4.1 GB 3 days ago" +:+ String nl
                               "llama3:8b 4.7 GB 2 days ago") ""))
        (λ _, Returned Sample.reply))
     Sample.st1).1
  = Returned [ModelRecord.mk "mistral" "mistral:7b" "4.1 GB" "3 days ago";
              ModelRecord.mk "llama3" "llama3:8b" "4.7 GB" "2 days ago"].
Proof. reflexivity. Qed.

Lemma rows_Forall (P : ModelRecord.t → Prop) lines :
  (∀ t0 t1 t2 t3 rest, P (Spec.record_of t0 t1 t2 t3 rest)) →
  Forall P (Spec.rows lines).
Proof.
  intros HP. induction lines as [|line lines IH]; [constructor|].
  unfold Spec.rows in *. simpl. apply Forall_app. split; [|exact IH].
  unfold Spec.row.
  destruct (Str.split line) as [|t0 [|t1 [|t2 [|t3 rest]]]]; auto.
Qed.

Lemma record_of_cut t0 t1 t2 t3 rest :
  Spec.cut_at_colon (Spec.record_of t0 t1 t2 t3 rest)
  ∧ (Str.contains ":" (ModelRecord.full_name (Spec.record_of t0 t1 t2 t3 rest))
     = false →
     ModelRecord.name (Spec.record_of t0 t1 t2 t3 rest)
     = ModelRecord.full_name (Spec.record_of t0 t1 t2 t3 rest)).
Proof.
  unfold Spec.cut_at_colon. simpl. split; [split|].
  - apply before_first_cut.
  - apply before_first_free.
  - apply before_first_id.
Qed.

Lemma placeholder_cut :
  Spec.cut_at_colon placeholder
  ∧ (Str.contains ":" (ModelRecord.full_name placeholder) = false →
     ModelRecord.name placeholder = ModelRecord.full_name placeholder).
Proof.
  split; [split; [|done] | discriminate].
  exists ":7b". split; [done|]. right. by exists "7b".
Qed.

(** C9: every record [get_models] returns, the placeholder among them, has
    as name its full name cut at the first colon; so when the full name
    holds no colon, the name is the full name. *)
Theorem record_name_is_full_name_cut (w : world) (st : state)
    (models : list ModelRecord.t) :
  (get_models w st).1 = Returned models →
  Forall (λ r,
      Spec.cut_at_colon r
      ∧ (Str.contains ":" (ModelRecord.full_name r) = false →
         ModelRecord.name r = ModelRecord.full_name r))
    (placeholder :: models).
Proof.
  pose proof placeholder_cut as Hph.
  destruct (subprocess_run w Spec.argv_list) as [cp|e] eqn:Hrun.
  - destruct (decide (CompletedProcess.returncode cp = 0%Z)) as [Hrc|Hrc].
    + rewrite (get_models_parsed w st cp Hrun Hrc). intros [= <-].
      constructor; [exact Hph|].
      destruct (Spec.rows _) eqn:Hrows; simpl.
      * constructor; [exact Hph | constructor].
      * rewrite <- Hrows. apply rows_Forall. exact record_of_cut.
    + rewrite (get_models_failed w st cp Hrun Hrc). intros [= <-].
      repeat (constructor; [exact Hph|]). constructor.
  - destruct (exn_is_Exception e) eqn:Hexc.
    + rewrite (get_models_raised w st e Hrun Hexc). intros [= <-].
      repeat (constructor; [exact Hph|]). constructor.
    + by rewrite (get_models_propagates w st e Hrun Hexc).
Qed.

Lemma record_name_is_full_name_cut_witness :
  Forall (λ r,
      Spec.cut_at_colon r
      ∧ (Str.contains ":" (ModelRecord.full_name r) = false →
         ModelRecord.name r = ModelRecord.full_name r))
    [placeholder; ModelRecord.mk "llama3" "llama3:8b" "4.7 GB" "2 days ago"].
Proof.
  apply (record_name_is_full_name_cut Sample.up Sample.st1). reflexivity.
Defined.

(** * The chat relay *)

Lemma pairs_length turns :
  length (flat_map Spec.pair_of turns) = 2 * length turns.
Proof. induction turns as [|t turns IH]; simpl; lia. Qed.

Lemma pairs_lookup turns : ∀ i human_msg assistant_msg,
  turns !! i = Some (human_msg, assistant_msg) →
  flat_map Spec.pair_of turns !! (2 * i) = Some (ChatMessage.mk "user" human_msg)
  ∧ flat_map Spec.pair_of turns !! (2 * i + 1)
    = Some (ChatMessage.mk "assistant" assistant_msg).
Proof.
  induction turns as [|t turns IH]; intros [|i] human_msg assistant_msg Hi;
    try discriminate.
  - injection Hi as ->. by split.
  - replace (2 * S i) with (S (S (2 * i))) by lia. simpl. by apply IH.
Qed.

(** The relay raises only what the endpoint raised and [except Exception]
    does not catch. *)
Lemma chat_with_model_raises w message history model_name temperature st e :
  (chat_with_model w message history model_name temperature st).1 = Raised e →
  exn_is_Exception e = false
  ∧ ∃ req, ollama_chat w req = Raised e.
Proof.
  destruct (heap st !! history) as [[turns|ms]|] eqn:Hh.
  - rewrite (chat_with_model_run w _ _ turns _ _ _ Hh).
    destruct (ollama_chat w _) as [response|e'] eqn:Hcall; [discriminate|].
    destruct (exn_is_Exception e') eqn:Hexc; [discriminate|].
    intros [= <-]. eauto.
  - by rewrite chat_with_model_no_turns by (intros turns; congruence).
  - by rewrite chat_with_model_no_turns by (intros turns; congruence).
Qed.

(** Every run of the relay allocates its own messages list. *)
Lemma chat_with_model_allocates w message history model_name temperature st :
  ∃ messages payload,
    heap st !! messages = None
    ∧ heap (chat_with_model w message history model_name temperature st).2
      = <[messages := ObjMessages payload]> (heap st).
Proof.
  exists (fresh (dom (heap st))).
  assert (Hfresh : heap st !! fresh (dom (heap st)) = None)
    by (apply not_elem_of_dom, is_fresh).
  destruct (heap st !! history) as [[turns|ms]|] eqn:Hh.
  - rewrite (chat_with_model_run w _ _ turns _ _ _ Hh).
    destruct (ollama_chat w _) as [response|e]; [by eexists|].
    destruct (exn_is_Exception e); by eexists.
  - rewrite chat_with_model_no_turns by (intros turns; congruence). by eexists.
  - rewrite chat_with_model_no_turns by (intros turns; congruence). by eexists.
Qed.

(** C1, amended: when the call to the chat endpoint made by the relay
    raises an instance of [Exception], the relay returns (it does not
    raise) the string ["Error: "] followed by the text of the exception, a
    string that starts with ["Error: "]. *)
Theorem relay_error_string (w : world) (message : string) (history : loc)
    (model_name : string) (temperature : float) (st : state)
    (events : list event) (req : ChatRequest.t) (e : exn) :
  trace (chat_with_model w message history model_name temperature st).2
  = trace st ++ events →
  EvChat req ∈ events →
  ollama_chat w req = Raised e →
  exn_is_Exception e = true →
  (chat_with_model w message history model_name temperature st).1
  = Returned ("Error: " +:+ exn_str e)
  ∧ Str.startswith "Error: " ("Error: " +:+ exn_str e) = true.
Proof.
  intros Htrace Hev Hraise Hexc. split; [|apply startswith_app].
  destruct (heap st !! history) as [[turns|ms]|] eqn:Hh.
  - pose proof (chat_with_model_run w message history turns model_name
                  temperature st Hh) as Hrun.
    cbv zeta in Hrun.
    destruct (ollama_chat w (ChatRequest.mk model_name
                (Spec.payload message turns) (ChatOptions.mk temperature)))
      as [response|e'] eqn:Hcall.
    + rewrite Hrun in Htrace |- *. cbn [snd fst trace] in *.
      apply app_inv_head in Htrace as <-.
      apply list_elem_of_singleton in Hev. injection Hev as ->. congruence.
    + destruct (exn_is_Exception e') eqn:Hexc';
        rewrite Hrun in Htrace |- *; cbn [snd fst trace] in *;
        apply app_inv_head in Htrace as <-.
      * apply elem_of_cons in Hev as [Hev|Hev].
        -- injection Hev as ->. congruence.
        -- apply list_elem_of_singleton in Hev. discriminate.
      * apply list_elem_of_singleton in Hev. injection Hev as ->. congruence.
  - revert Htrace. rewrite chat_with_model_no_turns by (intros turns; congruence).
    cbn [snd trace]. intros <-%app_inv_head.
    apply list_elem_of_singleton in Hev. discriminate.
  - revert Htrace. rewrite chat_with_model_no_turns by (intros turns; congruence).
    cbn [snd trace]. intros <-%app_inv_head.
    apply list_elem_of_singleton in Hev. discriminate.
Qed.

Lemma relay_error_string_witness :
  (chat_with_model Sample.down "hi" 1%positive "llama3:8b" 0.5 Sample.st1).1
  = Returned ("Error: " +:+ exn_str Sample.refused)
  ∧ Str.startswith "Error: " ("Error: " +:+ exn_str Sample.refused) = true.
Proof.
  apply (relay_error_string Sample.down "hi" 1%positive "llama3:8b" 0.5
           Sample.st1
           [EvChat Sample.req1;
            EvPrint "Debug - Error in chat_with_model: connection refused"]
           Sample.req1 Sample.refused);
    [reflexivity | left | reflexivity | reflexivity].
Defined.

(** C1 does not hold for every exception: when the call of the
    endpoint made by the relay raises [KeyboardInterrupt], which is no
    instance of [Exception], the relay returns no string: the exception
    reaches its caller. *)
Lemma relay_interrupted :
  trace (chat_with_model Demo.interrupted "hi" 1%positive "llama3:8b" 0.5
           Sample.st1).2
  = trace Sample.st1 ++ [EvChat Sample.req1]
  ∧ ollama_chat Demo.interrupted Sample.req1 = Raised Demo.interrupt
  ∧ (chat_with_model Demo.interrupted "hi" 1%positive "llama3:8b" 0.5
       Sample.st1).1 = Raised Demo.interrupt
  ∧ ¬ ∃ reply,
        (chat_with_model Demo.interrupted "hi" 1%positive "llama3:8b" 0.5
           Sample.st1).1 = Returned reply.
Proof.
  do 3 (split; [reflexivity|]). intros [reply H]. discriminate H.
Qed.

(** What the relay adds to the trace when the history holds [turns]: one
    call of the endpoint with the payload of the specification, followed
    by the debug line when the call raised. *)
Lemma chat_with_model_trace w message history turns model_name temperature st :
  heap st !! history = Some (ObjTurns turns) →
  ∃ tail,
    trace (chat_with_model w message history model_name temperature st).2
    = trace st
      ++ EvChat (ChatRequest.mk model_name (Spec.payload message turns)
                   (ChatOptions.mk temperature)) :: tail
    ∧ (tail = [] ∨ ∃ line, tail = [EvPrint line]).
Proof.
  intros Hh. rewrite (chat_with_model_run w _ _ turns _ _ _ Hh).
  destruct (ollama_chat w _) as [response|e]; [eexists; split; eauto|].
  destruct (exn_is_Exception e); eexists; split; eauto.
Qed.

(** C3: with a history of N turns, the messages payload the relay sends to
    the endpoint has length 1 + 2N + 1, and the i-th turn is found, user
    message first, at positions 1 + 2i and 1 + 2i + 1; the relay makes this
    one call and no other. *)
Theorem payload_length_and_order (w : world) (message : string)
    (history : loc) (turns : list turn) (model_name : string)
    (temperature : float) (st : state) :
  heap st !! history = Some (ObjTurns turns) →
  ∃ req tail,
    trace (chat_with_model w message history model_name temperature st).2
    = trace st ++ EvChat req :: tail
    ∧ (tail = [] ∨ ∃ line, tail = [EvPrint line])
    ∧ length (ChatRequest.messages req) = 1 + 2 * length turns + 1
    ∧ ∀ i human_msg assistant_msg,
        turns !! i = Some (human_msg, assistant_msg) →
        ChatRequest.messages req !! (1 + 2 * i)
        = Some (ChatMessage.mk "user" human_msg)
        ∧ ChatRequest.messages req !! (1 + 2 * i + 1)
          = Some (ChatMessage.mk "assistant" assistant_msg).
Proof.
  intros Hh.
  destruct (chat_with_model_trace w message _ _ model_name temperature _ Hh)
    as (tail & Htrace & Htail).
  eexists _, tail. split; [exact Htrace|]. split; [exact Htail|].
  cbn [ChatRequest.messages]. unfold Spec.payload. split.
  - cbn [length]. rewrite length_app, pairs_length. simpl. lia.
  - intros i human_msg assistant_msg Hi.
    destruct (pairs_lookup turns i _ _ Hi) as [Hu Ha].
    cbn [lookup list_lookup Nat.add]. split.
    + by apply lookup_app_l_Some.
    + by apply lookup_app_l_Some.
Qed.

Lemma payload_length_and_order_witness :
  ∃ req tail,
    trace (chat_with_model Sample.up "hi" 1%positive "llama3:8b" 0.5
             Sample.st1).2
    = trace Sample.st1 ++ EvChat req :: tail
    ∧ (tail = [] ∨ ∃ line, tail = [EvPrint line])
    ∧ length (ChatRequest.messages req) = 1 + 2 * length [("a", "b")] + 1
    ∧ ∀ i human_msg assistant_msg,
        [("a", "b")] !! i = Some (human_msg, assistant_msg) →
        ChatRequest.messages req !! (1 + 2 * i)
        = Some (ChatMessage.mk "user" human_msg)
        ∧ ChatRequest.messages req !! (1 + 2 * i + 1)
          = Some (ChatMessage.mk "assistant" assistant_msg).
Proof.
  apply (payload_length_and_order Sample.up "hi" 1%positive [("a", "b")]
           "llama3:8b" 0.5 Sample.st1).
  reflexivity.
Defined.

(** The payload for an empty history and the message ["hi"]: the system
    message and the user message. *)
Example payload_hi :
  trace (chat_with_model Sample.up "hi" 1%positive "llama3:8b" 0.5
           (State {[ 1%positive := ObjTurns [] ]} [])).2
  = [EvChat (ChatRequest.mk "llama3:8b"
               [ChatMessage.mk "system" system_message;
                ChatMessage.mk "user" "hi"]
               (ChatOptions.mk 0.5))].
Proof. reflexivity. Qed.

(** C5: the request the relay sends starts with the system instruction in
    the system role, goes on with a user and an assistant message per prior
    turn in order, ends with the new message in the user role, names the
    model, and carries the temperature as its option; when the endpoint
    answers, the relay returns the content of the answer's message. *)
Theorem relay_request_and_reply (w : world) (message : string)
    (history : loc) (turns : list turn) (model_name : string)
    (temperature : float) (st : state) :
  heap st !! history = Some (ObjTurns turns) →
  ∃ req tail,
    trace (chat_with_model w message history model_name temperature st).2
    = trace st ++ EvChat req :: tail
    ∧ ChatRequest.messages req
      = [ChatMessage.mk "system" system_message]
        ++ flat_map (λ t, [ChatMessage.mk "user" t.1;
                           ChatMessage.mk "assistant" t.2]) turns
        ++ [ChatMessage.mk "user" message]
    ∧ ChatRequest.model req = model_name
    ∧ ChatOptions.temperature (ChatRequest.options req) = temperature
    ∧ ∀ response,
        ollama_chat w req = Returned response →
        (chat_with_model w message history model_name temperature st).1
        = Returned (ChatMessage.content (ChatResponse.message response)).
Proof.
  intros Hh.
  destruct (chat_with_model_trace w message _ _ model_name temperature _ Hh)
    as (tail & Htrace & _).
  eexists _, tail. split; [exact Htrace|]. do 3 (split; [reflexivity|]).
  intros response Hcall.
  rewrite (chat_with_model_run w _ _ turns _ _ _ Hh). by rewrite Hcall.
Qed.

Lemma relay_request_and_reply_witness :
  ∃ req tail,
    trace (chat_with_model Sample.up "hi" 1%positive "llama3:8b" 0.5
             Sample.st1).2
    = trace Sample.st1 ++ EvChat req :: tail
    ∧ ChatRequest.messages req
      = [ChatMessage.mk "system" system_message]
        ++ flat_map (λ t, [ChatMessage.mk "user" t.1;
                           ChatMessage.mk "assistant" t.2]) [("a", "b")]
        ++ [ChatMessage.mk "user" "hi"]
    ∧ ChatRequest.model req = "llama3:8b"
    ∧ ChatOptions.temperature (ChatRequest.options req) = 0.5%float
    ∧ ∀ response,
        ollama_chat Sample.up req = Returned response →
        (chat_with_model Sample.up "hi" 1%positive "llama3:8b" 0.5
           Sample.st1).1
        = Returned (ChatMessage.content (ChatResponse.message response)).
Proof.
  apply (relay_request_and_reply Sample.up "hi" 1%positive [("a", "b")]
           "llama3:8b" 0.5 Sample.st1).
  reflexivity.
Defined.

Example relay_reply_hello :
  (chat_with_model Sample.up "hi" 1%positive "llama3:8b" 0.5 Sample.st1).1
  = Returned "hello".
Proof. reflexivity. Qed.

(** C8: the relay leaves the object its history argument refers to as it
    found it, whether the endpoint answers or raises: the one change to the
    heap is a list of messages at a location that was not in use. *)
Theorem relay_keeps_history (w : world) (message : string) (history : loc)
    (model_name : string) (temperature : float) (st : state) (obj : pyobj) :
  heap st !! history = Some obj →
  heap (chat_with_model w message history model_name temperature st).2
    !! history = Some obj
  ∧ ∃ messages payload,
      heap st !! messages = None
      ∧ heap (chat_with_model w message history model_name temperature st).2
        = <[messages := ObjMessages payload]> (heap st).
Proof.
  intros Hh.
  destruct (chat_with_model_allocates w message history model_name
              temperature st) as (messages & payload & Hfresh & Hheap).
  split; [|by exists messages, payload].
  rewrite Hheap. rewrite lookup_insert_ne; [done | congruence].
Qed.

Lemma relay_keeps_history_witness :
  heap (chat_with_model Sample.down "hi" 1%positive "llama3:8b" 0.5
          Sample.st1).2 !! 1%positive = Some (ObjTurns [("a", "b")])
  ∧ ∃ messages payload,
      heap Sample.st1 !! messages = None
      ∧ heap (chat_with_model Sample.down "hi" 1%positive "llama3:8b" 0.5
                Sample.st1).2
        = <[messages := ObjMessages payload]> (heap Sample.st1).
Proof.
  apply (relay_keeps_history Sample.down "hi" 1%positive "llama3:8b" 0.5
           Sample.st1 (ObjTurns [("a", "b")])).
  reflexivity.
Defined.

(** * The submit handler *)

(** C10: for an empty message [respond] returns an empty textbox value and
    the very list it was given, and leaves heap and trace as they were;
    since every run of the relay changes the heap, the relay was not
    run. *)
Theorem respond_empty_message (w : world) (message : string)
    (chat_history : loc) (model_name : string) (temp : float) (st : state) :
  Str.truthy message = false →
  respond w message chat_history model_name temp st
  = (Returned ("", chat_history), st)
  ∧ ∀ message' history' model_name' temp',
      (chat_with_model w message' history' model_name' temp' st).2 ≠ st.
Proof.
  intros Hempty. split.
  - unfold respond. by rewrite Hempty.
  - intros message' history' model_name' temp' Heq.
    destruct (chat_with_model_allocates w message' history' model_name'
                temp' st) as (messages & payload & Hfresh & Hheap).
    rewrite Heq in Hheap. rewrite Hheap, lookup_insert_eq in Hfresh.
    discriminate.
Qed.

Lemma respond_empty_message_witness :
  respond Sample.up "" 1%positive "llama3:8b" 0.5 Sample.st1
  = (Returned ("", 1%positive), Sample.st1)
  ∧ ∀ message' history' model_name' temp',
      (chat_with_model Sample.up message' history' model_name' temp'
         Sample.st1).2 ≠ Sample.st1.
Proof.
  apply (respond_empty_message Sample.up "" 1%positive "llama3:8b" 0.5
           Sample.st1).
  reflexivity.
Defined.

(** A message that is not empty reaches the relay, and the turn is
    appended to the caller's list in place. *)
Example respond_hi :
  (respond Sample.up "hi" 1%positive "llama3:8b" 0.5 Sample.st1).1
  = Returned ("", 1%positive)
  ∧ heap (respond Sample.up "hi" 1%positive "llama3:8b" 0.5 Sample.st1).2
      !! 1%positive
    = Some (ObjTurns [("a", "b"); ("hi", "hello")]).
Proof. split; reflexivity. Qed.

(** * Beyond the specification: tokens and surrounding whitespace *)

Section TokenFacts.

Implicit Types (s t cur : string) (c : ascii).

Lemma append_cons c s t : String c s +:+ t = String c (s +:+ t).
Proof. reflexivity. Qed.

Lemma append_empty_r s : s +:+ "" = s.
Proof. induction s as [|c s IH]; [done|]. by rewrite append_cons, IH. Qed.

Lemma append_assoc s t u : (s +:+ t) +:+ u = s +:+ t +:+ u.
Proof. induction s as [|c s IH]; [done|]. by rewrite !append_cons, IH. Qed.

Lemma truthy_append_r cur c t : Str.truthy (cur +:+ String c t) = true.
Proof. by destruct cur. Qed.

Lemma solid_append s t : solid s = true → solid t = true → solid (s +:+ t) = true.
Proof.
  induction s as [|c s IH]; simpl; [done|].
  intros [Hc Hs]%andb_prop Ht. rewrite Hc. simpl. auto.
Qed.

(** A whitespace character ends the token being read. *)
Lemma split_from_space cur s c t :
  Str.isspace c = true →
  Str.split_from cur (s +:+ String c t)
  = Str.split_from cur s ++ Str.split_from "" t.
Proof.
  intros Hc. revert cur. induction s as [|x s IH]; intros cur; simpl.
  - by rewrite Hc.
  - destruct (Str.isspace x); [|apply IH].
    rewrite IH. by rewrite app_assoc.
Qed.

(** A string without whitespace is read as one token. *)
Lemma split_from_solid t : ∀ cur,
  solid t = true →
  Str.split_from cur t
  = if Str.truthy (cur +:+ t) then [cur +:+ t] else [].
Proof.
  induction t as [|c t IH]; intros cur; simpl.
  - intros _. by rewrite append_empty_r.
  - intros [Hc Ht]%andb_prop. apply negb_true_iff in Hc. rewrite Hc.
    rewrite IH by done. by rewrite append_assoc.
Qed.

Lemma split_solid t : solid t = true → t ≠ "" → Str.split t = [t].
Proof.
  intros Ht Hne. unfold Str.split. rewrite split_from_solid by done. simpl.
  by destruct t.
Qed.

(** Every token [split] returns is non-empty and free of whitespace. *)
Lemma split_from_tokens s : ∀ cur,
  solid cur = true →
  Forall (λ t, solid t = true ∧ t ≠ "") (Str.split_from cur s).
Proof.
  assert (Hcur : ∀ cur, solid cur = true →
    Forall (λ t, solid t = true ∧ t ≠ "")
      (if Str.truthy cur then [cur] else [])).
  { intros [|c cur] Hs; simpl; [constructor|]. by repeat constructor. }
  induction s as [|c s IH]; intros cur Hs; simpl; [by apply Hcur|].
  destruct (Str.isspace c) eqn:Hc.
  - apply Forall_app. split; [by apply Hcur | by apply IH].
  - apply IH, solid_append; [done|]. simpl. by rewrite Hc.
Qed.

Lemma split_tokens s : Forall (λ t, solid t = true ∧ t ≠ "") (Str.split s).
Proof. by apply split_from_tokens. Qed.

Lemma split_append_space s t :
  Str.split (s +:+ " " +:+ t) = Str.split s ++ Str.split t.
Proof. unfold Str.split. by apply (split_from_space "" s " " t). Qed.

(** Joining tokens with single spaces and splitting again gives the tokens
    back. *)
Lemma split_join parts :
  Forall (λ t, solid t = true ∧ t ≠ "") parts →
  Str.split (Str.join " " parts) = parts.
Proof.
  induction 1 as [|t [|t' parts] [Ht Hne] _ IH]; [done|..].
  - by apply split_solid.
  - change (Str.join " " (t :: t' :: parts))
      with (t +:+ " " +:+ Str.join " " (t' :: parts)).
    rewrite split_append_space, IH. by rewrite split_solid.
Qed.

Lemma lstrip_of_blank s : Spec.blank s = true → Str.lstrip s = "".
Proof.
  induction s as [|c s IH]; simpl; [done|].
  intros [Hc Hs]%andb_prop. rewrite Hc. auto.
Qed.

Lemma rstrip_of_blank s : Spec.blank s = true → Str.rstrip s = "".
Proof.
  induction s as [|c s IH]; simpl; [done|].
  intros [Hc Hs]%andb_prop. by rewrite IH, Hc.
Qed.

Lemma lstrip_append_blank pre s :
  Spec.blank pre = true → Str.lstrip (pre +:+ s) = Str.lstrip s.
Proof.
  induction pre as [|c pre IH]; simpl; [done|].
  intros [Hc Hs]%andb_prop. rewrite Hc. auto.
Qed.

Lemma rstrip_append_blank s post :
  Spec.blank post = true → Str.rstrip (s +:+ post) = Str.rstrip s.
Proof.
  intros Hb. induction s as [|c s IH]; simpl.
  - by apply rstrip_of_blank.
  - by rewrite IH.
Qed.

Lemma lstrip_blank_suffix s post :
  Spec.blank post = true →
  Str.lstrip (s +:+ post)
  = if Spec.blank s then "" else Str.lstrip s +:+ post.
Proof.
  intros Hb. induction s as [|c s IH]; simpl.
  - by apply lstrip_of_blank.
  - destruct (Str.isspace c); simpl; [exact IH | done].
Qed.

(** Whitespace around a text does not change what [strip] gives. *)
Lemma strip_padded pre s post :
  Spec.blank pre = true → Spec.blank post = true →
  Str.strip (pre +:+ s +:+ post) = Str.strip s.
Proof.
  intros Hpre Hpost. unfold Str.strip.
  rewrite lstrip_append_blank, lstrip_blank_suffix by done.
  destruct (Spec.blank s) eqn:Hs.
  - by rewrite (lstrip_of_blank s Hs).
  - by apply rstrip_append_blank.
Qed.

End TokenFacts.

(** * Beyond the specification: the inventory reader *)

Lemma record_of_tokens t0 t1 t2 t3 rest :
  Forall (λ t, solid t = true ∧ t ≠ "") (t0 :: t1 :: t2 :: t3 :: rest) →
  Str.split (ModelRecord.full_name (Spec.record_of t0 t1 t2 t3 rest)) = [t0]
  ∧ Str.split (ModelRecord.size (Spec.record_of t0 t1 t2 t3 rest)) = [t1; t2]
  ∧ Str.split (ModelRecord.modified (Spec.record_of t0 t1 t2 t3 rest))
    = t3 :: rest.
Proof.
  intros Htok. pose proof Htok as Htok'.
  apply Forall_cons in Htok' as [[H0 N0] Htok'].
  apply Forall_cons in Htok' as [[H1 N1] Htok'].
  apply Forall_cons in Htok' as [[H2 N2] Htok'].
  cbn [Spec.record_of ModelRecord.full_name ModelRecord.size
       ModelRecord.modified].
  split; [by apply split_solid|]. split; [|by apply split_join].
  by rewrite split_append_space, !split_solid.
Qed.

(** X1: the record made from a data line of at least four tokens keeps
    every token of the line, in order: the full name is the first token,
    the size splits back into the second and third, and the modification
    time splits back into the rest. Only the layout of the whitespace is
    lost. *)
Theorem record_keeps_tokens (w : world) (st : state) (cp : CompletedProcess.t)
    (before after : list string) (line : string) :
  subprocess_run w ["ollama"; "list"] = Returned cp →
  CompletedProcess.returncode cp = 0%Z →
  Spec.data_lines (CompletedProcess.stdout cp) = before ++ line :: after →
  4 ≤ length (Str.split line) →
  ∃ r,
    (get_models w st).1
    = Returned (Spec.rows before ++ [r] ++ Spec.rows after)
    ∧ length (Str.split (ModelRecord.size r)) = 2
    ∧ Str.split line
      = ModelRecord.full_name r
        :: Str.split (ModelRecord.size r) ++ Str.split (ModelRecord.modified r).
Proof.
  intros Hrun Hrc Hlines Hlen.
  destruct (Str.split line) as [|t0 [|t1 [|t2 [|t3 rest]]]] eqn:Hsplit;
    simpl in Hlen; try lia.
  exists (Spec.record_of t0 t1 t2 t3 rest).
  pose proof (split_tokens line) as Htok. rewrite Hsplit in Htok.
  destruct (record_of_tokens _ _ _ _ _ Htok) as (_ & Hsize & Hmod).
  rewrite Hsize, Hmod. split; [|done].
  rewrite (get_models_parsed w st cp Hrun Hrc), Hlines, rows_app.
  unfold Spec.rows at 2. cbn [flat_map]. fold (Spec.rows after).
  unfold Spec.row at 1. rewrite Hsplit.
  by destruct (Spec.rows before).
Qed.

Lemma record_keeps_tokens_witness :
  ∃ r,
    (get_models Sample.up Sample.st1).1
    = Returned (Spec.rows [] ++ [r] ++ Spec.rows ["broken row"])
    ∧ length (Str.split (ModelRecord.size r)) = 2
    ∧ Str.split "llama3:8b 4.7 GB 2 days ago"
      = ModelRecord.full_name r
        :: Str.split (ModelRecord.size r) ++ Str.split (ModelRecord.modified r).
Proof.
  apply (record_keeps_tokens Sample.up Sample.st1
           (CompletedProcess.mk 0 Sample.listing "") [] ["broken row"]
           "llama3:8b 4.7 GB 2 days ago");
    [reflexivity | reflexivity | reflexivity | vm_compute; lia].
Defined.

Lemma before_first_solid sep s : solid s = true → solid (Spec.before_first sep s) = true.
Proof.
  induction s as [|c s IH]; simpl; [done|].
  intros [Hc Hs]%andb_prop. destruct (Ascii.eqb c sep); simpl; [done|].
  by rewrite Hc, IH.
Qed.

Lemma rows_well_formed lines :
  Forall (λ r, Str.split (ModelRecord.full_name r) = [ModelRecord.full_name r]
               ∧ solid (ModelRecord.name r) = true)
    (Spec.rows lines).
Proof.
  induction lines as [|line lines IH]; [constructor|].
  unfold Spec.rows in *. simpl. apply Forall_app. split; [|exact IH].
  unfold Spec.row. pose proof (split_tokens line) as Htok.
  destruct (Str.split line) as [|t0 [|t1 [|t2 [|t3 rest]]]]; try constructor;
    [|constructor].
  destruct (record_of_tokens _ _ _ _ _ Htok) as (Hfull & _ & _).
  apply Forall_cons in Htok as [[H0 _] _].
  split; [exact Hfull | by apply before_first_solid].
Qed.

(** X2: in every record [get_models] returns, the full name is a single
    token (not empty and free of whitespace: splitting it gives it back),
    and the name holds no whitespace. *)
Theorem full_names_are_tokens (w : world) (st : state)
    (models : list ModelRecord.t) :
  (get_models w st).1 = Returned models →
  Forall (λ r,
      Str.split (ModelRecord.full_name r) = [ModelRecord.full_name r]
      ∧ solid (ModelRecord.name r) = true) models.
Proof.
  assert (Hph : Forall (λ r,
      Str.split (ModelRecord.full_name r) = [ModelRecord.full_name r]
      ∧ solid (ModelRecord.name r) = true) [placeholder])
    by (by repeat constructor).
  destruct (subprocess_run w Spec.argv_list) as [cp|e] eqn:Hrun.
  - destruct (decide (CompletedProcess.returncode cp = 0%Z)) as [Hrc|Hrc].
    + rewrite (get_models_parsed w st cp Hrun Hrc). intros [= <-].
      destruct (Spec.rows _) eqn:Hrows; simpl; [exact Hph|].
      rewrite <- Hrows. apply rows_well_formed.
    + rewrite (get_models_failed w st cp Hrun Hrc). by intros [= <-].
  - destruct (exn_is_Exception e) eqn:Hexc.
    + rewrite (get_models_raised w st e Hrun Hexc). by intros [= <-].
    + by rewrite (get_models_propagates w st e Hrun Hexc).
Qed.

Lemma full_names_are_tokens_witness :
  Forall (λ r,
      Str.split (ModelRecord.full_name r) = [ModelRecord.full_name r]
      ∧ solid (ModelRecord.name r) = true)
    [ModelRecord.mk "llama3" "llama3:8b" "4.7 GB" "2 days ago"].
Proof.
  apply (full_names_are_tokens Sample.up Sample.st1). reflexivity.
Defined.

(** A name can be empty all the same: a full name that starts with a
    colon. *)
Example empty_name :
  (get_models
     (World (λ _, Returned (CompletedProcess.mk 0 ":latest 1 GB now" ""))
        (λ _, Returned Sample.reply))
     Sample.st1).1
  = Returned [ModelRecord.mk "" ":latest" "1 GB" "now"].
Proof. reflexivity. Qed.

(** X3: [get_models] leaves the heap alone and runs the inventory command
    once, as its first effect, and never the chat endpoint. It prints a
    line exactly when the command raised an instance of [Exception] or
    exited with a non-zero code. It prints nothing when the listing was
    read, also when no row of it is usable and the placeholder is
    returned, and nothing when the command raised what is no instance of
    [Exception], which it passes on. *)
Theorem get_models_effects (w : world) (st : state) :
  heap (get_models w st).2 = heap st
  ∧ ∃ tail,
      trace (get_models w st).2
      = trace st ++ EvRun ["ollama"; "list"] :: tail
      ∧ ((tail = []
          ∧ ((∃ cp, subprocess_run w ["ollama"; "list"] = Returned cp
                    ∧ CompletedProcess.returncode cp = 0%Z)
             ∨ (∃ e, subprocess_run w ["ollama"; "list"] = Raised e
                     ∧ exn_is_Exception e = false
                     ∧ (get_models w st).1 = Raised e)))
         ∨ ((∃ line, tail = [EvPrint line])
            ∧ ((∃ cp, subprocess_run w ["ollama"; "list"] = Returned cp
                      ∧ CompletedProcess.returncode cp ≠ 0%Z)
               ∨ (∃ e, subprocess_run w ["ollama"; "list"] = Raised e
                       ∧ exn_is_Exception e = true)))).
Proof.
  destruct (subprocess_run w Spec.argv_list) as [cp|e] eqn:Hrun.
  - destruct (decide (CompletedProcess.returncode cp = 0%Z)) as [Hrc|Hrc].
    + rewrite (get_models_parsed w st cp Hrun Hrc). split; [done|].
      exists []. split; [done|]. left. split; [done|]. left. by exists cp.
    + rewrite (get_models_failed w st cp Hrun Hrc). split; [done|].
      eexists. split; [done|]. right. split; [by eexists|]. left. by exists cp.
  - destruct (exn_is_Exception e) eqn:Hexc.
    + rewrite (get_models_raised w st e Hrun Hexc). split; [done|].
      eexists. split; [done|]. right. split; [by eexists|]. right. by exists e.
    + rewrite (get_models_propagates w st e Hrun Hexc). split; [done|].
      exists []. split; [done|]. left. split; [done|]. right. by exists e.
Qed.

(** The two kinds of raise, on sample worlds. *)
Example get_models_interrupt_is_silent :
  get_models Demo.interrupted Sample.st1
  = (Raised Demo.interrupt,
     State (heap Sample.st1) [EvRun ["ollama"; "list"]]).
Proof. reflexivity. Qed.

(** X4: whitespace before and after the output of the inventory command
    (blank lines, a final newline) changes nothing: [get_models] returns
    and prints the same. *)
Theorem get_models_ignores_padding (w w' : world) (st : state)
    (cp : CompletedProcess.t) (pre post : string) :
  subprocess_run w ["ollama"; "list"] = Returned cp →
  subprocess_run w' ["ollama"; "list"]
  = Returned (CompletedProcess.mk (CompletedProcess.returncode cp)
                (pre +:+ CompletedProcess.stdout cp +:+ post)
                (CompletedProcess.stderr cp)) →
  Str.strip pre = "" →
  Str.strip post = "" →
  get_models w' st = get_models w st.
Proof.
  intros Hrun Hrun' Hpre Hpost.
  assert (Hbpre : Spec.blank pre = true) by (apply strip_blank; by rewrite Hpre).
  assert (Hbpost : Spec.blank post = true)
    by (apply strip_blank; by rewrite Hpost).
  destruct (decide (CompletedProcess.returncode cp = 0%Z)) as [Hrc|Hrc].
  - rewrite (get_models_parsed w st cp Hrun Hrc).
    rewrite (get_models_parsed w' st _ Hrun' Hrc).
    unfold Spec.data_lines. cbn [CompletedProcess.stdout].
    by rewrite strip_padded.
  - rewrite (get_models_failed w st cp Hrun Hrc).
    by rewrite (get_models_failed w' st _ Hrun' Hrc).
Qed.

Lemma get_models_ignores_padding_witness :
  get_models Demo.up_padded Sample.st1 = get_models Sample.up Sample.st1.
Proof.
  apply (get_models_ignores_padding Sample.up Demo.up_padded Sample.st1
           (CompletedProcess.mk 0 Sample.listing "")
           (String nl (String nl "")) ("  " +:+ String nl ""));
    reflexivity.
Defined.

(** * Beyond the specification: the submit handler *)

Lemma append_turn_run l t ts st :
  heap st !! l = Some (ObjTurns ts) →
  append_turn l t st
  = (Returned (), State (<[l := ObjTurns (ts ++ [t])]> (heap st)) (trace st)).
Proof. unfold append_turn. by intros ->. Qed.

(** A non-empty message on a list of turns: the relay runs once; when it
    returns, its reply is appended to the list in place; when it raises,
    [respond] raises and appends nothing. *)
Lemma respond_run w message chat_history turns model_name temp st :
  heap st !! chat_history = Some (ObjTurns turns) →
  Str.truthy message = true →
  ∃ out st1 messages payload,
    chat_with_model w message chat_history model_name temp st = (out, st1)
    ∧ heap st !! messages = None
    ∧ heap st1 = <[messages := ObjMessages payload]> (heap st)
    ∧ respond w message chat_history model_name temp st
      = match out with
        | Returned reply =>
            (Returned ("", chat_history),
             State (<[chat_history := ObjTurns (turns ++ [(message, reply)])]>
                      (heap st1))
               (trace st1))
        | Raised e => (Raised e, st1)
        end.
Proof.
  intros Hh Hm.
  destruct (chat_with_model_allocates w message chat_history model_name temp st)
    as (messages & payload & Hfresh & Hheap).
  destruct (chat_with_model w message chat_history model_name temp st)
    as [out st1] eqn:Hrun.
  simpl in Hheap.
  exists out, st1, messages, payload. repeat split; try done.
  unfold respond. rewrite Hm. cbn [negb]. rewrite run_bind, Hrun.
  destruct out as [reply|e]; [|done].
  rewrite run_bind, (append_turn_run chat_history _ turns); [done|].
  rewrite Hheap, lookup_insert_ne; [done | congruence].
Qed.

(** X5: for a non-empty message and a history of turns, and an endpoint
    that answers or raises an instance of [Exception], [respond] raises
    nothing, clears the textbox and returns the list it was given; that
    list, in place, now holds the old turns followed by one new turn: the
    message and the reply of the relay, which is the content of the answer
    when the endpoint answers and the error string when it raises. *)
Theorem respond_appends_turn (w : world) (message : string)
    (chat_history : loc) (turns : list turn) (model_name : string)
    (temp : float) (st : state) :
  heap st !! chat_history = Some (ObjTurns turns) →
  Str.truthy message = true →
  (∀ e, ollama_chat w (ChatRequest.mk model_name (Spec.payload message turns)
                         (ChatOptions.mk temp)) = Raised e →
        exn_is_Exception e = true) →
  ∃ reply,
    (respond w message chat_history model_name temp st).1
    = Returned ("", chat_history)
    ∧ heap (respond w message chat_history model_name temp st).2
        !! chat_history
      = Some (ObjTurns (turns ++ [(message, reply)]))
    ∧ reply
      = match ollama_chat w (ChatRequest.mk model_name
                               (Spec.payload message turns)
                               (ChatOptions.mk temp)) with
        | Returned response =>
            ChatMessage.content (ChatResponse.message response)
        | Raised e => "Error: " +:+ exn_str e
        end.
Proof.
  intros Hh Hm Hexc.
  destruct (respond_run w message chat_history turns model_name temp st Hh Hm)
    as (out & st1 & messages & payload & Hrun & _ & _ & Hres).
  rewrite (chat_with_model_run w _ _ turns _ _ _ Hh) in Hrun.
  rewrite Hres.
  destruct (ollama_chat w _) as [response|e] eqn:Hcall.
  - injection Hrun as <- _. eexists. cbn [fst snd heap].
    split; [done|]. split; [apply lookup_insert_eq | done].
  - rewrite (Hexc e eq_refl) in Hrun. injection Hrun as <- _.
    eexists. cbn [fst snd heap].
    split; [done|]. split; [apply lookup_insert_eq | done].
Qed.

Lemma respond_appends_turn_witness :
  ∃ reply,
    (respond Sample.down "hi" 1%positive "llama3:8b" 0.5 Sample.st1).1
    = Returned ("", 1%positive)
    ∧ heap (respond Sample.down "hi" 1%positive "llama3:8b" 0.5 Sample.st1).2
        !! 1%positive
      = Some (ObjTurns ([("a", "b")] ++ [("hi", reply)]))
    ∧ reply
      = match ollama_chat Sample.down
                (ChatRequest.mk "llama3:8b" (Spec.payload "hi" [("a", "b")])
                   (ChatOptions.mk 0.5)) with
        | Returned response =>
            ChatMessage.content (ChatResponse.message response)
        | Raised e => "Error: " +:+ exn_str e
        end.
Proof.
  apply (respond_appends_turn Sample.down "hi" 1%positive [("a", "b")]
           "llama3:8b" 0.5 Sample.st1);
    [reflexivity | reflexivity | intros e [= <-]; reflexivity].
Defined.

(** An endpoint call that is interrupted: [respond] raises and the history
    holds the turns it held. *)
Example respond_interrupted :
  (respond Demo.interrupted "hi" 1%positive "llama3:8b" 0.5 Sample.st1).1
  = Raised Demo.interrupt
  ∧ heap (respond Demo.interrupted "hi" 1%positive "llama3:8b" 0.5
            Sample.st1).2 !! 1%positive
    = Some (ObjTurns [("a", "b")]).
Proof. split; reflexivity. Qed.

(** X6: apart from the history it appends to and the messages list the
    relay allocates at an unused location, [respond] leaves every object of
    the heap as it was; it calls the endpoint once and never runs the
    inventory command. *)
Theorem respond_frame (w : world) (message : string) (chat_history : loc)
    (turns : list turn) (model_name : string) (temp : float) (st : state) :
  heap st !! chat_history = Some (ObjTurns turns) →
  Str.truthy message = true →
  (∀ l obj, l ≠ chat_history → heap st !! l = Some obj →
            heap (respond w message chat_history model_name temp st).2 !! l
            = Some obj)
  ∧ ∃ req tail,
      trace (respond w message chat_history model_name temp st).2
      = trace st ++ EvChat req :: tail
      ∧ (tail = [] ∨ ∃ line, tail = [EvPrint line]).
Proof.
  intros Hh Hm.
  destruct (respond_run w message chat_history turns model_name temp st Hh Hm)
    as (out & st1 & messages & payload & Hrun & Hfresh & Hheap & Hres).
  destruct (chat_with_model_trace w message chat_history turns model_name
              temp st Hh) as (tail & Htrace & Htail).
  rewrite Hrun in Htrace. cbn [snd] in Htrace.
  rewrite Hres. destruct out as [reply|e]; cbn [snd heap trace]; split; eauto.
  - intros l obj Hl Hobj. rewrite lookup_insert_ne by done.
    rewrite Hheap, lookup_insert_ne; [done | congruence].
  - intros l obj Hl Hobj.
    rewrite Hheap, lookup_insert_ne; [done | congruence].
Qed.

Lemma respond_frame_witness :
  (∀ l obj, l ≠ 1%positive → heap Sample.st1 !! l = Some obj →
            heap (respond Sample.up "hi" 1%positive "llama3:8b" 0.5
                    Sample.st1).2 !! l
            = Some obj)
  ∧ ∃ req tail,
      trace (respond Sample.up "hi" 1%positive "llama3:8b" 0.5 Sample.st1).2
      = trace Sample.st1 ++ EvChat req :: tail
      ∧ (tail = [] ∨ ∃ line, tail = [EvPrint line]).
Proof.
  apply (respond_frame Sample.up "hi" 1%positive [("a", "b")] "llama3:8b" 0.5
           Sample.st1); reflexivity.
Defined.

(** X7: what one exchange appends is what the next request carries: once
    the relay has returned a reply to a first message and [respond] has
    appended the turn, the relay called with a second message on the same
    list sends the system message, the old turns, the first message with
    that reply (an error string included), and the second message; so each
    exchange makes the next request two messages longer. *)
Theorem respond_feeds_next_request (w : world) (first second : string)
    (chat_history : loc) (turns : list turn) (model_name : string)
    (temp : float) (st : state) (reply : string) :
  heap st !! chat_history = Some (ObjTurns turns) →
  Str.truthy first = true →
  (chat_with_model w first chat_history model_name temp st).1
  = Returned reply →
  ∃ req tail,
    (respond w first chat_history model_name temp st).1
    = Returned ("", chat_history)
    ∧ trace (chat_with_model w second chat_history model_name temp
               (respond w first chat_history model_name temp st).2).2
      = trace (respond w first chat_history model_name temp st).2
        ++ EvChat req :: tail
    ∧ ChatRequest.messages req
      = Spec.payload second (turns ++ [(first, reply)])
    ∧ length (ChatRequest.messages req)
      = length (Spec.payload second turns) + 2.
Proof.
  intros Hh Hm Hreply.
  destruct (respond_run w first chat_history turns model_name temp st Hh Hm)
    as (out & st1 & messages & payload & Hrun & _ & _ & Hres).
  rewrite Hrun in Hreply. cbn [fst] in Hreply. subst out.
  rewrite Hres. cbn [fst snd].
  match goal with |- context [chat_with_model w second _ _ _ ?s] =>
    destruct (chat_with_model_trace w second chat_history
                (turns ++ [(first, reply)]) model_name temp s
                (lookup_insert_eq _ _ _)) as (tail & Htrace & _)
  end.
  eexists _, tail. split; [done|]. split; [exact Htrace|].
  split; [done|]. cbn [ChatRequest.messages]. unfold Spec.payload.
  cbn [length]. rewrite !length_app, !pairs_length, length_app. simpl. lia.
Qed.

Lemma respond_feeds_next_request_witness :
  ∃ req tail,
    (respond Sample.down "hi" 1%positive "llama3:8b" 0.5 Sample.st1).1
    = Returned ("", 1%positive)
    ∧ trace (chat_with_model Sample.down "again" 1%positive "llama3:8b" 0.5
               (respond Sample.down "hi" 1%positive "llama3:8b" 0.5
                  Sample.st1).2).2
      = trace (respond Sample.down "hi" 1%positive "llama3:8b" 0.5
                 Sample.st1).2
        ++ EvChat req :: tail
    ∧ ChatRequest.messages req
      = Spec.payload "again"
          ([("a", "b")] ++ [("hi", "Error: connection refused")])
    ∧ length (ChatRequest.messages req)
      = length (Spec.payload "again" [("a", "b")]) + 2.
Proof.
  apply (respond_feeds_next_request Sample.down "hi" "again" 1%positive
           [("a", "b")] "llama3:8b" 0.5 Sample.st1
           "Error: connection refused"); reflexivity.
Defined.

(** After a failed call the error string is in the conversation, in the
    assistant role. *)
Example error_string_is_sent_back :
  trace (chat_with_model Sample.up "again" 1%positive "llama3:8b" 0.5
           (respond Sample.down "hi" 1%positive "llama3:8b" 0.5
              (State {[ 1%positive := ObjTurns [] ]} [])).2).2
  !! 2
  = Some (EvChat (ChatRequest.mk "llama3:8b"
                    [ChatMessage.mk "system" system_message;
                     ChatMessage.mk "user" "hi";
                     ChatMessage.mk "assistant" "Error: connection refused";
                     ChatMessage.mk "user" "again"]
                    (ChatOptions.mk 0.5))).
Proof. reflexivity. Qed.

(** X8: failures travel in band. An endpoint that raises an instance of
    [Exception] and an endpoint that answers with the text ["Error: "]
    followed by the text of that exception make the relay return the same
    string, so the caller cannot tell the two apart from the result. *)
Theorem relay_error_in_band (w w' : world) (message : string) (history : loc)
    (turns : list turn) (model_name : string) (temperature : float)
    (st : state) (e : exn) (role : string) :
  heap st !! history = Some (ObjTurns turns) →
  ollama_chat w (ChatRequest.mk model_name (Spec.payload message turns)
                   (ChatOptions.mk temperature)) = Raised e →
  exn_is_Exception e = true →
  ollama_chat w' (ChatRequest.mk model_name (Spec.payload message turns)
                    (ChatOptions.mk temperature))
  = Returned (ChatResponse.mk (ChatMessage.mk role ("Error: " +:+ exn_str e))) →
  (chat_with_model w message history model_name temperature st).1
  = (chat_with_model w' message history model_name temperature st).1
  ∧ heap (chat_with_model w message history model_name temperature st).2
    = heap (chat_with_model w' message history model_name temperature st).2.
Proof.
  intros Hh Hraise Hexc Hreply.
  rewrite (chat_with_model_run w _ _ turns _ _ _ Hh), Hraise, Hexc.
  by rewrite (chat_with_model_run w' _ _ turns _ _ _ Hh), Hreply.
Qed.

Lemma relay_error_in_band_witness :
  (chat_with_model Sample.down "hi" 1%positive "llama3:8b" 0.5 Sample.st1).1
  = (chat_with_model Demo.up_error_text "hi" 1%positive "llama3:8b" 0.5
       Sample.st1).1
  ∧ heap (chat_with_model Sample.down "hi" 1%positive "llama3:8b" 0.5
            Sample.st1).2
    = heap (chat_with_model Demo.up_error_text "hi" 1%positive "llama3:8b" 0.5
              Sample.st1).2.
Proof.
  apply (relay_error_in_band Sample.down Demo.up_error_text "hi" 1%positive
           [("a", "b")] "llama3:8b" 0.5 Sample.st1 Sample.refused "assistant");
    reflexivity.
Defined.

(** * Beyond the specification: the model table and the model dropdown *)

(** What [get_models] hands to its callers when it returns: a list that
    is not empty, of records whose full name is one token. *)
Lemma get_models_shape w st models st' :
  get_models w st = (Returned models, st') →
  models ≠ []
  ∧ Forall (λ r, Str.split (ModelRecord.full_name r)
                 = [ModelRecord.full_name r]) models.
Proof.
  assert (Hph : Forall (λ r, Str.split (ModelRecord.full_name r)
                             = [ModelRecord.full_name r]) [placeholder])
    by (by repeat constructor).
  destruct (subprocess_run w Spec.argv_list) as [cp|e] eqn:Hrun.
  - destruct (decide (CompletedProcess.returncode cp = 0%Z)) as [Hrc|Hrc].
    + rewrite (get_models_parsed w st cp Hrun Hrc). intros [= <- _].
      split; [apply or_placeholder_nonempty|].
      destruct (Spec.rows _) eqn:Hrows; simpl; [exact Hph|].
      rewrite <- Hrows. eapply Forall_impl; [apply rows_well_formed|].
      by intros r [Hr _].
    + rewrite (get_models_failed w st cp Hrun Hrc). by intros [= <- _].
  - destruct (exn_is_Exception e) eqn:Hexc.
    + rewrite (get_models_raised w st e Hrun Hexc). by intros [= <- _].
    + by rewrite (get_models_propagates w st e Hrun Hexc).
Qed.

Lemma table_rows_aligned (models : list ModelRecord.t) :
  Forall (λ row, length row = 4) (map table_row models)
  ∧ ∀ i row, map table_row models !! i = Some row →
             map ModelRecord.full_name models !! i = row !! 1.
Proof.
  split.
  - induction models; by constructor.
  - intros i row. rewrite !list_lookup_fmap.
    destruct (models !! i) as [m|]; simpl; [|discriminate].
    by intros [= <-].
Qed.

(** X9: the arguments [create_interface] passes to the model table and the
    model dropdown, whenever [get_models] has returned and they are
    computed. The dropdown's initial value is never [None]: it is the first
    of its choices, a full name that is one token, and the branch for an
    empty list of models is not taken. The table value has one row per
    choice, each with as many cells as there are headers and with the
    choice as its second cell. *)
Theorem create_interface_default_model (w : world) (st : state)
    (ui : Interface.t) :
  (create_interface_arguments w st).1 = Returned ui →
  ∃ first_choice rest,
    Dropdown.choices (Interface.model_dropdown ui) = first_choice :: rest
    ∧ Dropdown.value (Interface.model_dropdown ui) = Some first_choice
    ∧ Str.split first_choice = [first_choice]
    ∧ length (Interface.model_table ui)
      = length (Dropdown.choices (Interface.model_dropdown ui))
    ∧ Forall (λ row, length row = length (Interface.headers ui))
        (Interface.model_table ui)
    ∧ ∀ i row, Interface.model_table ui !! i = Some row →
               Dropdown.choices (Interface.model_dropdown ui) !! i = row !! 1.
Proof.
  unfold create_interface_arguments. rewrite run_bind.
  destruct (get_models w st) as [[models|e] st'] eqn:Hrun; [|discriminate].
  destruct (get_models_shape w st models st' Hrun) as [Hne Htok].
  destruct models as [|m models]; [done|].
  rewrite run_bind. cbn [getitem lookup list_lookup]. rewrite run_bind.
  rewrite !run_ret. cbn [fst]. intros [= <-].
  exists (ModelRecord.full_name m), (map ModelRecord.full_name models).
  cbn [Interface.model_dropdown Interface.model_table Interface.headers
       Dropdown.choices Dropdown.value].
  split; [done|]. split; [done|].
  split; [by apply Forall_cons in Htok as [? _]|].
  split; [simpl; by rewrite !length_map|].
  apply (table_rows_aligned (m :: models)).
Qed.

Lemma create_interface_default_model_witness :
  ∃ first_choice rest,
    ["llama3:8b"] = first_choice :: rest
    ∧ Some "llama3:8b" = Some first_choice
    ∧ Str.split first_choice = [first_choice]
    ∧ length [["llama3"; "llama3:8b"; "4.7 GB"; "2 days ago"]]
      = length ["llama3:8b"]
    ∧ Forall (λ row, length row
                     = length ["Model"; "Full Name"; "Size"; "Last Modified"])
        [["llama3"; "llama3:8b"; "4.7 GB"; "2 days ago"]]
    ∧ ∀ i row, [["llama3"; "llama3:8b"; "4.7 GB"; "2 days ago"]] !! i
               = Some row →
               ["llama3:8b"] !! i = row !! 1.
Proof.
  apply (create_interface_default_model Sample.up Sample.st1
           (Interface.mk ["Model"; "Full Name"; "Size"; "Last Modified"]
              [["llama3"; "llama3:8b"; "4.7 GB"; "2 days ago"]]
              (Dropdown.mk ["llama3:8b"] (Some "llama3:8b")))).
  reflexivity.
Defined.

(** X10: the table and the dropdown arguments the refresh handler returns
    go together: whenever it returns them, both hold what [get_models]
    returned in that run, at least one entry, one table row of four cells
    per choice, with the choice as the second cell of its row; the effects
    of the handler are those of that one call of [get_models]. *)
Theorem refresh_models_aligned (w : world) (st : state)
    (table : list (list string)) (dropdown : Dropdown.t) :
  (refresh_models w st).1 = Returned (table, dropdown) →
  (refresh_models w st).2 = (get_models w st).2
  ∧ ∃ models,
      (get_models w st).1 = Returned models
      ∧ table = map table_row models
      ∧ table ≠ []
      ∧ length table = length (Dropdown.choices dropdown)
      ∧ Forall (λ row, length row = 4) table
      ∧ ∀ i row, table !! i = Some row →
                 Dropdown.choices dropdown !! i = row !! 1.
Proof.
  unfold refresh_models. rewrite run_bind.
  destruct (get_models w st) as [[models|e] st'] eqn:Hrun; [|discriminate].
  destruct (get_models_shape w st models st' Hrun) as [Hne _].
  rewrite run_ret. cbn [fst snd]. intros [= <- <-].
  split; [done|]. exists models. cbn [Dropdown.choices].
  do 2 (split; [done|]).
  split; [by destruct models|]. split; [by rewrite !length_map|].
  apply table_rows_aligned.
Qed.

Lemma refresh_models_aligned_witness :
  (refresh_models Sample.down Sample.st1).2 = (get_models Sample.down Sample.st1).2
  ∧ ∃ models,
      (get_models Sample.down Sample.st1).1 = Returned models
      ∧ [["llama2"; "llama2:7b"; "Unknown"; "Unknown"]] = map table_row models
      ∧ [["llama2"; "llama2:7b"; "Unknown"; "Unknown"]] ≠ []
      ∧ length [["llama2"; "llama2:7b"; "Unknown"; "Unknown"]]
        = length (Dropdown.choices (Dropdown.mk ["llama2:7b"] None))
      ∧ Forall (λ row, length row = 4)
          [["llama2"; "llama2:7b"; "Unknown"; "Unknown"]]
      ∧ ∀ i row, [["llama2"; "llama2:7b"; "Unknown"; "Unknown"]] !! i
                 = Some row →
                 Dropdown.choices (Dropdown.mk ["llama2:7b"] None) !! i
                 = row !! 1.
Proof.
  apply (refresh_models_aligned Sample.down Sample.st1
           [["llama2"; "llama2:7b"; "Unknown"; "Unknown"]]
           (Dropdown.mk ["llama2:7b"] None)).
  reflexivity.
Defined.

(** An interrupted inventory command: the refresh handler raises. *)
Example refresh_models_interrupted :
  (refresh_models Demo.interrupted Sample.st1).1 = Raised Demo.interrupt.
Proof. reflexivity. Qed.

Example create_interface_sample :
  (create_interface_arguments Sample.up Sample.st1).1
  = Returned (Interface.mk ["Model"; "Full Name"; "Size"; "Last Modified"]
                [["llama3"; "llama3:8b"; "4.7 GB"; "2 days ago"]]
                (Dropdown.mk ["llama3:8b"] (Some "llama3:8b"))).
Proof. reflexivity. Qed.

Example refresh_models_offline :
  (refresh_models Sample.down Sample.st1).1
  = Returned ([["llama2"; "llama2:7b"; "Unknown"; "Unknown"]],
              Dropdown.mk ["llama2:7b"] None).
Proof. reflexivity. Qed.
